(** * chit-chat: the Socket.IO session, membership and broadcast core of app.py

    A shallow embedding of [src/app.py].  The three SQLAlchemy tables are
    lists of rows in insertion (rowid) order, the two module-level dicts
    [active_users] and [user_channels] are finite maps keyed by the socket
    id, and every [sio.emit] is appended to a log of emissions.  Each
    Socket.IO event handler is a computation in a small state-and-exception
    monad, written in the order of the Python statements. *)

From stdpp Require Import gmap strings list sorting.
From Stdlib Require Import ZArith NArith Ascii Lia.

Local Open Scope Z_scope.

(** ** Text

    Socket ids, user names and channel names are only ever compared for
    equality, so they are [string]s.  The content of a message is also
    trimmed ([content.strip()]), which depends on the code points of a
    Python [str]: message content is a list of code points. *)

Definition codepoint := N.

(** [str.isspace] on one code point, the table CPython's [str.strip()]
    uses when called without argument. *)
Definition py_isspace (c : codepoint) : bool :=
  ((9 <=? c) && (c <=? 13) || (28 <=? c) && (c <=? 32)
   || (c =? 133) || (c =? 160) || (c =? 5760)
   || (8192 <=? c) && (c <=? 8202)
   || (c =? 8232) || (c =? 8233) || (c =? 8239) || (c =? 8287)
   || (c =? 12288))%N.

Fixpoint lstrip (s : list codepoint) : list codepoint :=
  match s with
  | [] => []
  | c :: s' => if py_isspace c then lstrip s' else s
  end.

Definition rstrip (s : list codepoint) : list codepoint :=
  reverse (lstrip (reverse s)).

(** [content.strip()] *)
Definition strip (s : list codepoint) : list codepoint :=
  rstrip (lstrip s).

(** The code points of an ASCII literal, to write contents down. *)
Fixpoint text (s : string) : list codepoint :=
  match s with
  | EmptyString => []
  | String a s' => N_of_ascii a :: text s'
  end.

(** ** Database models *)

Module User.
Record t := mk {
  id : Z;
  username : string;
  socket_id : option string;
  created_at : Z
}.
End User.

Module Channel.
Record t := mk {
  id : Z;
  name : string;
  description : option string;
  created_at : Z
}.
End Channel.

Module Message.
Record t := mk {
  id : Z;
  content : list codepoint;
  user_id : Z;
  channel_id : Z;
  timestamp : Z
}.
End Message.

(** The three tables, each in insertion order. *)
Record database := mk_database {
  users : list User.t;
  channels : list Channel.t;
  messages : list Message.t
}.

(** An [Integer] primary key on SQLite is the rowid: a new row gets the
    largest id in the table plus one, and 1 in an empty table. *)
Definition next_id (ids : list Z) : Z :=
  1 + foldr Z.max 0 ids.

(** [db.query(User).filter(User.socket_id == socket_id).first()] *)
Definition get_user_by_socket_id (socket_id : string) (d : database)
  : option User.t :=
  find (fun u => bool_decide (User.socket_id u = Some socket_id)) (users d).

(** [db.query(User).filter(User.username == username).first()] *)
Definition find_user_by_username (username : string) (d : database)
  : option User.t :=
  find (fun u => bool_decide (User.username u = username)) (users d).

(** The [Message.user] relationship: the row of [users] with that id. *)
Definition find_user_by_id (id : Z) (d : database) : option User.t :=
  find (fun u => bool_decide (User.id u = id)) (users d).

(** [db.query(Channel).filter(Channel.id == channel_id).first()] *)
Definition find_channel_by_id (channel_id : Z) (d : database)
  : option Channel.t :=
  find (fun c => bool_decide (Channel.id c = channel_id)) (channels d).

(** [db.query(Channel).filter(Channel.name == channel_name).first()] *)
Definition find_channel_by_name (name : string) (d : database)
  : option Channel.t :=
  find (fun c => bool_decide (Channel.name c = name)) (channels d).

(** [user.socket_id = v; db.commit()]: an UPDATE of the row with the
    user's primary key. *)
Definition update_socket_id (id : Z) (v : option string) (d : database)
  : database :=
  mk_database
    (map (fun u => if bool_decide (User.id u = id)
                   then User.mk (User.id u) (User.username u) v (User.created_at u)
                   else u) (users d))
    (channels d) (messages d).

Definition add_user (u : User.t) (d : database) : database :=
  mk_database (users d ++ [u]) (channels d) (messages d).

Definition add_channel (c : Channel.t) (d : database) : database :=
  mk_database (users d) (channels d ++ [c]) (messages d).

Definition add_message (m : Message.t) (d : database) : database :=
  mk_database (users d) (channels d) (messages d ++ [m]).

(** [ORDER BY timestamp DESC], as a stable insertion sort: rows with equal
    timestamps keep their rowid order.  (The order of ties is the database
    engine's choice; no statement below depends on it.) *)
Fixpoint insert_desc (m : Message.t) (l : list Message.t) : list Message.t :=
  match l with
  | [] => [m]
  | x :: l' =>
      if Message.timestamp m <? Message.timestamp x
      then x :: insert_desc m l'
      else m :: l
  end.

Definition order_by_timestamp_desc (l : list Message.t) : list Message.t :=
  foldr insert_desc [] l.

Definition of_channel (channel_id : Z) (d : database) : list Message.t :=
  filter (fun m => Message.channel_id m = channel_id) (messages d).

(** [get_channel_messages(channel_id, db, limit)]: filter on the channel,
    newest first, the first [limit] rows, then reversed ([[::-1]]).  The
    limit is a number of rows; the callers pass the default, 50. *)
Definition get_channel_messages (channel_id : Z) (d : database) (limit : nat)
  : list Message.t :=
  reverse (take limit (order_by_timestamp_desc (of_channel channel_id d))).

(** Orders on message rows by their timestamps. *)
Definition not_after (a b : Message.t) : Prop :=
  Message.timestamp a <= Message.timestamp b.

Definition before (a b : Message.t) : Prop :=
  Message.timestamp a < Message.timestamp b.

(** The foreign key [messages.user_id -> users.id]: every message row has
    its author among the user rows. *)
Definition authors_exist (d : database) : Prop :=
  forall m, m ∈ messages d -> find_user_by_id (Message.user_id m) d <> None.

(** ** Events, targets and the server state *)

(** The [message_data] dictionaries of [join_channel] and [send_message];
    [timestamp] stands for its [isoformat()] rendering. *)
Module MessageData.
Record t := mk {
  id : Z;
  content : list codepoint;
  username : string;
  timestamp : Z;
  channel_id : Z
}.
End MessageData.

(** The events the server emits, each with its payload. *)
Module Event.
Inductive t :=
  | joined_app (username : string) (user_id : Z)
  | channel_joined (channel_id : Z) (channel_name : string)
                   (messages : list MessageData.t)
  | user_joined (username : string) (channel_id : Z)
  | user_left (username : string) (channel_id : Z)
  | new_message (message_data : MessageData.t)
  | channel_created (id : Z) (name : string) (description : option string)
  | error (message : string).
End Event.

(** A Socket.IO room: [f"channel_{channel_id}"], or the private room every
    connection has under its own sid. *)
Inductive room :=
| channel_room (channel_id : Z)
| sid_room (sid : string).

(** The addressing of one [sio.emit]: [room=..., skip_sid=...], or neither
    (every connected client). *)
Inductive target :=
| to_room (r : room) (skip_sid : option string)
| to_all.

Record emission := Emit { emitted : Event.t; addressed : target }.

(** The [data] dictionary of an inbound event, with the keys the handlers
    read; a key the client left out is [None]. *)
Module Data.
Record t := mk {
  username : option string;
  channel_id : option Z;
  content : option (list codepoint);
  name : option string;
  description : option string
}.
Definition empty : t := mk None None None None None.
End Data.

(** The process: the database, the two module-level dicts, the rooms of the
    Socket.IO server (pairs of a channel id and a member sid) and the
    emissions made so far, oldest first. *)
Record server := mk_server {
  db : database;
  active_users : gmap string string;
  user_channels : gmap string (gset Z);
  rooms : gset (Z * string);
  sent : list emission
}.

(** ** The handler monad: state and Python exceptions *)

Inductive exn :=
| KeyError (key : string)
| AttributeError (attr : string).

Inductive outcome (A : Type) :=
| Returned (a : A)
| Raised (e : exn).
Arguments Returned {A} a.
Arguments Raised {A} e.

Definition handler (A : Type) : Type := server -> outcome A * server.

#[global] Instance handler_ret : MRet handler :=
  fun A a s => (Returned a, s).

#[global] Instance handler_bind : MBind handler :=
  fun A B f m s =>
    match m s with
    | (Returned a, s') => f a s'
    | (Raised e, s') => (Raised e, s')
    end.

#[global] Instance handler_throw : MThrow exn handler :=
  fun A e s => (Raised e, s).

(** The state a handler leaves behind, whether it returned or raised. *)
Definition exec {A} (h : handler A) (s : server) : server := snd (h s).

(** How it ended. *)
Definition result {A} (h : handler A) (s : server) : outcome A := fst (h s).

(** A read-only query. *)
Definition query {A} (q : database -> A) : handler A :=
  fun s => (Returned (q (db s)), s).

(** A write followed by [db.commit()]. *)
Definition commit (w : database -> database) : handler unit :=
  fun s => (Returned tt,
            mk_server (w (db s)) (active_users s) (user_channels s) (rooms s) (sent s)).

Definition get_active_users : handler (gmap string string) :=
  fun s => (Returned (active_users s), s).

Definition set_active_users (m : gmap string string) : handler unit :=
  fun s => (Returned tt,
            mk_server (db s) m (user_channels s) (rooms s) (sent s)).

Definition get_user_channels : handler (gmap string (gset Z)) :=
  fun s => (Returned (user_channels s), s).

Definition set_user_channels (m : gmap string (gset Z)) : handler unit :=
  fun s => (Returned tt,
            mk_server (db s) (active_users s) m (rooms s) (sent s)).

(** [sio.enter_room(sid, f"channel_{channel_id}")] *)
Definition enter_room (sid : string) (channel_id : Z) : handler unit :=
  fun s => (Returned tt,
            mk_server (db s) (active_users s) (user_channels s)
                      ({[ (channel_id, sid) ]} ∪ rooms s) (sent s)).

(** [sio.leave_room(sid, f"channel_{channel_id}")] *)
Definition leave_room (sid : string) (channel_id : Z) : handler unit :=
  fun s => (Returned tt,
            mk_server (db s) (active_users s) (user_channels s)
                      (rooms s ∖ {[ (channel_id, sid) ]}) (sent s)).

(** [sio.emit(event, payload, room=..., skip_sid=...)] *)
Definition emit (e : Event.t) (to : target) : handler unit :=
  fun s => (Returned tt,
            mk_server (db s) (active_users s) (user_channels s) (rooms s)
                      (sent s ++ [Emit e to])).

(** [data[key]] *)
Definition item {A} (key : string) (v : option A) : handler A :=
  match v with
  | Some a => mret a
  | None => mthrow (KeyError key)
  end.

(** [for x in xs: body] *)
Fixpoint for_each {A} (xs : list A) (body : A -> handler unit) : handler unit :=
  match xs with
  | [] => mret tt
  | x :: xs' => body x;; for_each xs' body
  end.

(** [db.add(User(username=..., socket_id=...)); db.commit(); db.refresh(user)] *)
Definition insert_user (username : string) (sid : string) (now : Z)
  : handler User.t :=
  ids ← query (fun d => map User.id (users d));
  let user := User.mk (next_id ids) username (Some sid) now in
  commit (add_user user);;
  mret user.

(** [db.add(Channel(name=..., description=...)); db.commit(); db.refresh(...)] *)
Definition insert_channel (name : string) (description : option string) (now : Z)
  : handler Channel.t :=
  ids ← query (fun d => map Channel.id (channels d));
  let channel := Channel.mk (next_id ids) name description now in
  commit (add_channel channel);;
  mret channel.

(** [db.add(Message(content=..., user_id=..., channel_id=...)); db.commit();
    db.refresh(message)]; the timestamp column defaults to the clock. *)
Definition insert_message (content : list codepoint) (user_id channel_id : Z)
    (now : Z) : handler Message.t :=
  ids ← query (fun d => map Message.id (messages d));
  let message := Message.mk (next_id ids) content user_id channel_id now in
  commit (add_message message);;
  mret message.

(** One entry of the history sent on [channel_joined]; [msg.user.username]
    raises when the row has no user. *)
Definition message_data (msg : Message.t) : handler MessageData.t :=
  user ← query (find_user_by_id (Message.user_id msg));
  match user with
  | Some user =>
      mret (MessageData.mk (Message.id msg) (Message.content msg)
              (User.username user) (Message.timestamp msg)
              (Message.channel_id msg))
  | None => mthrow (AttributeError "username")
  end.

(** ** The Socket.IO event handlers *)

Definition to_sid (sid : string) : target := to_room (sid_room sid) None.

Definition to_channel (channel_id : Z) : target :=
  to_room (channel_room channel_id) None.

Definition connect (sid : string) : handler unit := mret tt.

(** The handler proper; the Socket.IO server itself takes the sid out of
    its rooms when the connection closes.  A Python set is iterated in no
    specified order: the order of [elements] stands for it, and the
    statements about these emissions are up to permutation. *)
Definition disconnect (sid : string) : handler unit :=
  user ← query (get_user_by_socket_id sid);
  match user with
  | Some user =>
      (* Update user status *)
      commit (update_socket_id (User.id user) None);;
      (* Remove from active users *)
      active ← get_active_users;
      match active !! sid with
      | Some username =>
          set_active_users (delete sid active);;
          (* Notify all channels the user left *)
          joined ← get_user_channels;
          match joined !! sid with
          | Some chans =>
              for_each (elements chans) (fun channel_id =>
                emit (Event.user_left username channel_id)
                     (to_channel channel_id));;
              set_user_channels (delete sid joined)
          | None => mret tt
          end
      | None => mret tt
      end
  | None => mret tt
  end.

Definition join_app (sid : string) (data : Data.t) (now : Z) : handler unit :=
  username ← item "username" (Data.username data);
  (* Check if user exists, create if not *)
  found ← query (find_user_by_username username);
  user ← match found with
         | None => insert_user username sid now
         | Some user =>
             commit (update_socket_id (User.id user) (Some sid));;
             mret user
         end;
  active ← get_active_users;
  set_active_users (<[sid := username]> active);;
  joined ← get_user_channels;
  set_user_channels (<[sid := ∅]> joined);;
  emit (Event.joined_app username (User.id user)) (to_sid sid).

Definition join_channel (sid : string) (data : Data.t) : handler unit :=
  channel_id ← item "channel_id" (Data.channel_id data);
  user ← query (get_user_by_socket_id sid);
  channel ← query (find_channel_by_id channel_id);
  match user, channel with
  | Some user, Some channel =>
      (* Join the socket.io room for this channel *)
      enter_room sid channel_id;;
      (* Track user's channels *)
      joined ← get_user_channels;
      match joined !! sid with
      | Some chans => set_user_channels (<[sid := chans ∪ {[channel_id]}]> joined)
      | None => mret tt
      end;;
      (* Get recent messages for this channel *)
      messages ← query (fun d => get_channel_messages channel_id d 50);
      history ← mapM message_data messages;
      emit (Event.channel_joined channel_id (Channel.name channel) history)
           (to_sid sid);;
      (* Notify others in the channel *)
      emit (Event.user_joined (User.username user) channel_id)
           (to_room (channel_room channel_id) (Some sid))
  | _, _ => mret tt
  end.

Definition leave_channel (sid : string) (data : Data.t) : handler unit :=
  channel_id ← item "channel_id" (Data.channel_id data);
  user ← query (get_user_by_socket_id sid);
  match user with
  | Some user =>
      (* Leave the socket.io room *)
      leave_room sid channel_id;;
      (* Remove from user's channels *)
      joined ← get_user_channels;
      match joined !! sid with
      | Some chans => set_user_channels (<[sid := chans ∖ {[channel_id]}]> joined)
      | None => mret tt
      end;;
      (* Notify others in the channel *)
      emit (Event.user_left (User.username user) channel_id)
           (to_channel channel_id)
  | None => mret tt
  end.

(** Truth of a Python [str]: non-empty. *)
Definition truthy (s : list codepoint) : bool :=
  match s with [] => false | _ :: _ => true end.

Definition send_message (sid : string) (data : Data.t) (now : Z) : handler unit :=
  channel_id ← item "channel_id" (Data.channel_id data);
  content ← item "content" (Data.content data);
  user ← query (get_user_by_socket_id sid);
  channel ← query (find_channel_by_id channel_id);
  match user, channel with
  | Some user, Some channel =>
      if truthy (strip content) then
        (* Save message to database *)
        message ← insert_message content (User.id user) channel_id now;
        (* Broadcast message to all users in the channel *)
        emit (Event.new_message
                (MessageData.mk (Message.id message) (Message.content message)
                   (User.username user) (Message.timestamp message) channel_id))
             (to_channel channel_id)
      else mret tt
  | _, _ => mret tt
  end.

(** The double quote character of the error message. *)
Definition dquote : string := String (ascii_of_nat 34) EmptyString.

Definition already_exists (channel_name : string) : string :=
  ("Channel " +:+ dquote +:+ channel_name +:+ dquote +:+ " already exists")%string.

Definition create_channel (sid : string) (data : Data.t) (now : Z) : handler unit :=
  channel_name ← item "name" (Data.name data);
  let channel_description := default EmptyString (Data.description data) in
  user ← query (get_user_by_socket_id sid);
  match user with
  | Some user =>
      (* Check if channel already exists *)
      existing_channel ← query (find_channel_by_name channel_name);
      match existing_channel with
      | Some _ => emit (Event.error (already_exists channel_name)) (to_sid sid)
      | None =>
          (* Create new channel *)
          new_channel ← insert_channel channel_name (Some channel_description) now;
          (* Broadcast new channel to all connected users *)
          emit (Event.channel_created (Channel.id new_channel)
                  (Channel.name new_channel) (Channel.description new_channel))
               to_all
      end
  | None => mret tt
  end.

(** An empty database, no session, nothing sent. *)
Definition initial : server :=
  mk_server (mk_database [] [] []) ∅ ∅ ∅ [].

(** The database seeded at process start: [create_default_channels()]. *)
Definition create_default_channels (now : Z) : handler unit :=
  n ← query (fun d => length (channels d));
  if bool_decide (n = 0%nat) then
    for_each
      [("general", "General discussion"); ("random", "Random conversations");
       ("tech", "Technology discussions")]%string
      (fun c => insert_channel (fst c) (Some (snd c)) now;; mret tt)
  else mret tt.

(** ** The event loop

    One inbound event, and the server handling a sequence of them, each
    handler running to its end before the next starts. *)

Inductive request :=
| Connect
| Disconnect
| JoinApp (data : Data.t) (now : Z)
| JoinChannel (data : Data.t)
| LeaveChannel (data : Data.t)
| SendMessage (data : Data.t) (now : Z)
| CreateChannel (data : Data.t) (now : Z).

Definition handle (sid : string) (r : request) : handler unit :=
  match r with
  | Connect => connect sid
  | Disconnect => disconnect sid
  | JoinApp data now => join_app sid data now
  | JoinChannel data => join_channel sid data
  | LeaveChannel data => leave_channel sid data
  | SendMessage data now => send_message sid data now
  | CreateChannel data now => create_channel sid data now
  end.

(** An exception ends the handler that raised it, not the server. *)
Definition run (events : list (string * request)) (s : server) : server :=
  foldl (fun s ev => exec (handle (fst ev) (snd ev)) s) s events.

(** The two dicts have the same keys. *)
Definition in_sync (s : server) : Prop :=
  dom (user_channels s) = dom (active_users s).

(** ** Sample runs

    Payloads and the states a few short sessions reach, used to evaluate
    the handlers on concrete inputs. *)

Definition with_username (u : string) : Data.t :=
  Data.mk (Some u) None None None None.

Definition with_channel (c : Z) : Data.t :=
  Data.mk None (Some c) None None None.

Definition with_message (c : Z) (content : list codepoint) : Data.t :=
  Data.mk None (Some c) (Some content) None None.

Definition with_name (n : string) : Data.t :=
  Data.mk None None None (Some n) None.

(** The three default channels exist. *)
Definition seeded : server :=
  exec (create_default_channels 0) initial.

(** Connection s1 has said it is alice. *)
Definition alice_online : server :=
  exec (join_app "s1" (with_username "alice") 1) seeded.

(** ... and has joined channel 1 (general). *)
Definition alice_in_general : server :=
  exec (join_channel "s1" (with_channel 1)) alice_online.

(** ... and channel 2 (random). *)
Definition alice_in_two : server :=
  exec (join_channel "s1" (with_channel 2)) alice_in_general.

(** A second connection s2 says it is alice too, while s1 is still
    connected and a member of channel 1. *)
Definition alice_rebound : server :=
  exec (join_app "s2" (with_username "alice") 2) alice_in_general.

(** Two messages to channel 1, the clock stepping back between them. *)
Definition clock_stepped_back : server :=
  exec (send_message "s1" (with_message 1 (text "second")) 5)
    (exec (send_message "s1" (with_message 1 (text "first")) 10)
       alice_in_general).

(** ** The HTTP API *)

(** One entry of the answer of [GET /api/channels]. *)
Module ChannelData.
Record t := mk {
  id : Z;
  name : string;
  description : option string
}.
End ChannelData.

(** [get_channels]: every channel row, in table order. *)
Definition get_channels (d : database) : list ChannelData.t :=
  map (fun channel => ChannelData.mk (Channel.id channel) (Channel.name channel)
                        (Channel.description channel))
      (channels d).

(** [get_channel_messages_api]: the recent messages of a channel (default
    limit), rendered like the history of [channel_joined]. *)
Definition get_channel_messages_api (channel_id : Z) : handler (list MessageData.t) :=
  messages ← query (fun d => get_channel_messages channel_id d 50);
  mapM message_data messages.

(** ** Vocabulary of the statements *)

(** The first key a handler reads that the payload lacks, in the order of
    the [data[...]] accesses. *)
Definition missing_key (r : request) : option string :=
  match r with
  | Connect | Disconnect => None
  | JoinApp data _ =>
      match Data.username data with None => Some "username"%string | Some _ => None end
  | JoinChannel data | LeaveChannel data =>
      match Data.channel_id data with None => Some "channel_id"%string | Some _ => None end
  | SendMessage data _ =>
      match Data.channel_id data, Data.content data with
      | None, _ => Some "channel_id"%string
      | Some _, None => Some "content"%string
      | Some _, Some _ => None
      end
  | CreateChannel data _ =>
      match Data.name data with None => Some "name"%string | Some _ => None end
  end.

Definition is_join_app (r : request) : bool :=
  match r with JoinApp _ _ => true | _ => false end.

(** The columns the schema declares as primary key or [unique=True]. *)
Definition unique_columns (d : database) : Prop :=
  NoDup (map User.id (users d))
  /\ NoDup (map User.username (users d))
  /\ NoDup (map Channel.id (channels d))
  /\ NoDup (map Channel.name (channels d))
  /\ NoDup (map Message.id (messages d)).

(** Every message row has its author and its channel in the database and a
    content that is not blank. *)
Definition messages_sound (d : database) : Prop :=
  forall m, m ∈ messages d ->
    find_user_by_id (Message.user_id m) d <> None
    /\ find_channel_by_id (Message.channel_id m) d <> None
    /\ strip (Message.content m) <> [].

(** What of a user row never changes. *)
Definition user_key (u : User.t) : Z * string * Z :=
  (User.id u, User.username u, User.created_at u).


(** The writes a handler can commit. *)
Inductive db_step (d : database) : database -> Prop :=
| step_none : db_step d d
| step_socket u v :
    u ∈ users d -> db_step d (update_socket_id (User.id u) v d)
| step_user username sid now :
    find_user_by_username username d = None ->
    db_step d (add_user (User.mk (next_id (map User.id (users d))) username
                           (Some sid) now) d)
| step_channel name description now :
    find_channel_by_name name d = None ->
    db_step d (add_channel (Channel.mk (next_id (map Channel.id (channels d))) name
                              description now) d)
| step_message content u channel_id now :
    u ∈ users d ->
    find_channel_by_id channel_id d <> None ->
    strip content <> [] ->
    db_step d (add_message (Message.mk (next_id (map Message.id (messages d)))
                              content (User.id u) channel_id now) d).

(** Alice, bound to s1 and in channel 1, has sent one message. *)
Definition alice_has_spoken : server :=
  exec (send_message "s1" (with_message 1 (text "hello")) 10) alice_in_general.

(** Connection s1, bound to alice, says it is bob. *)
Definition alice_renamed : server :=
  exec (join_app "s1" (with_username "bob") 20) alice_in_general.

(** A short session on the seeded server: two connections claim the same
    name, a taken and a free channel name are asked for, messages are sent
    (one blank, one by a stranger), and the first connection leaves. *)
Definition session : list (string * request) :=
  [ ("s1", JoinApp (with_username "alice") 1);
    ("s1", JoinChannel (with_channel 1));
    ("s2", JoinApp (with_username "alice") 2);
    ("s2", CreateChannel (with_name "general") 3);
    ("s2", CreateChannel (with_name "dev") 4);
    ("s2", JoinChannel (with_channel 4));
    ("s2", SendMessage (with_message 4 (text "hello")) 5);
    ("s2", SendMessage (with_message 4 (text "  ")) 6);
    ("s3", SendMessage (with_message 1 (text "anyone?")) 7);
    ("s1", LeaveChannel (with_channel 1));
    ("s1", Disconnect);
    ("s2", Disconnect) ]%string.


(** * Properties *)

(** Unfolds one handler run down to the state it builds. *)
Ltac unfold_handler :=
  unfold exec, result, item, query, commit, emit, enter_room, leave_room,
    get_active_users, set_active_users, get_user_channels, set_user_channels,
    insert_user, insert_channel, insert_message, to_sid, to_channel,
    mbind, handler_bind, mret, handler_ret, mthrow, handler_throw in *;
  cbn.

(** ** Trimming *)

Lemma lstrip_all_space (s : list codepoint) :
  forallb py_isspace s = true -> lstrip s = [].
Proof.
  induction s as [|c s IH]; simpl; [reflexivity|].
  intros [Hc Hs]%andb_prop. rewrite Hc. auto.
Qed.

Lemma strip_all_space (s : list codepoint) :
  forallb py_isspace s = true -> strip s = [].
Proof.
  intros H. unfold strip. rewrite (lstrip_all_space s H). reflexivity.
Qed.

Lemma lstrip_nil_inv (s : list codepoint) :
  lstrip s = [] -> forallb py_isspace s = true.
Proof.
  induction s as [|c s IH]; simpl; [reflexivity|].
  destruct (py_isspace c); [auto | discriminate].
Qed.

Lemma lstrip_forallb (s : list codepoint) :
  forallb py_isspace (lstrip s) = true -> forallb py_isspace s = true.
Proof.
  induction s as [|c s IH]; simpl; [reflexivity|].
  destruct (py_isspace c) eqn:E; simpl; [auto|].
  rewrite E. discriminate.
Qed.

Lemma forallb_reverse {A} (p : A -> bool) (l : list A) :
  forallb p (reverse l) = true -> forallb p l = true.
Proof.
  rewrite !forallb_forall. intros H x Hx. apply H.
  apply list_elem_of_In, elem_of_reverse, list_elem_of_In, Hx.
Qed.

(** A content is blank after trimming exactly when it is made of
    whitespace only. *)
Lemma strip_nil_iff (s : list codepoint) :
  strip s = [] <-> forallb py_isspace s = true.
Proof.
  split; [|apply strip_all_space].
  unfold strip, rstrip. intros H.
  apply (f_equal reverse) in H. rewrite reverse_involutive, reverse_nil in H.
  apply lstrip_nil_inv, forallb_reverse, lstrip_forallb in H. exact H.
Qed.

(** ** [send_message] *)

(** C5: a content made of whitespace only (blank after trimming) creates no
    Message row and emits nothing; [send_message] leaves the whole state as
    it was, whoever the sender and whatever the channel. *)
Theorem send_message_whitespace_only sid data now s content :
  Data.content data = Some content ->
  forallb py_isspace content = true ->
  let s' := exec (send_message sid data now) s in
  messages (db s') = messages (db s) /\ sent s' = sent s /\ s' = s.
Proof.
  intros Ht Hblank. unfold send_message. rewrite Ht.
  destruct (Data.channel_id data) as [channel_id|]; unfold_handler; [|auto].
  rewrite (strip_all_space _ Hblank).
  destruct (get_user_by_socket_id sid (db s)), (find_channel_by_id channel_id (db s));
    cbn; destruct s; auto.
Qed.

Lemma send_message_whitespace_only_witness :
  let s' := exec (send_message "s1" (with_message 1 (text "   ")) 7) alice_in_general in
  messages (db s') = messages (db alice_in_general)
  /\ sent s' = sent alice_in_general /\ s' = alice_in_general.
Proof.
  apply (send_message_whitespace_only "s1" (with_message 1 (text "   ")) 7
           alice_in_general (text "   ")); reflexivity.
Defined.

(** C9: a content that is not blank after trimming is stored and broadcast
    as it was received: the new Message row and the [new_message] payload
    both carry the untrimmed [content]. *)
Theorem send_message_keeps_content sid data now s channel_id content user channel :
  Data.channel_id data = Some channel_id ->
  Data.content data = Some content ->
  get_user_by_socket_id sid (db s) = Some user ->
  find_channel_by_id channel_id (db s) = Some channel ->
  strip content <> [] ->
  let s' := exec (send_message sid data now) s in
  let id := next_id (map Message.id (messages (db s))) in
  messages (db s') =
    messages (db s) ++ [Message.mk id content (User.id user) channel_id now]
  /\ sent s' =
       sent s ++ [Emit (Event.new_message
                          (MessageData.mk id content (User.username user) now channel_id))
                       (to_channel channel_id)].
Proof.
  intros Hc Ht Hu Hch Hne. unfold send_message. rewrite Hc, Ht.
  unfold_handler. rewrite Hu, Hch.
  destruct (strip content) as [|c k]; [congruence|]. cbn. auto.
Qed.

Lemma send_message_keeps_content_witness :
  let s' := exec (send_message "s1" (with_message 1 (text "  hi ")) 7) alice_in_general in
  messages (db s') = [Message.mk 1 (text "  hi ") 1 1 7]
  /\ sent s' =
       sent alice_in_general
       ++ [Emit (Event.new_message (MessageData.mk 1 (text "  hi ") "alice" 7 1))
                (to_channel 1)].
Proof.
  apply (send_message_keeps_content "s1" (with_message 1 (text "  hi ")) 7
           alice_in_general 1 (text "  hi ")
           (User.mk 1 "alice" (Some "s1"%string) 1)
           (Channel.mk 1 "general" (Some "General discussion"%string) 0));
    [reflexivity | reflexivity | reflexivity | reflexivity | vm_compute; discriminate].
Defined.

(** ** [leave_channel] *)

(** C10: for an identified connection, [leave_channel] always returns and
    emits exactly one [user_left] carrying the given channel id to that
    channel's room; nothing is asked of the membership of the connection
    or of the existence of the channel. *)
Theorem leave_channel_always_notifies sid data s channel_id user :
  Data.channel_id data = Some channel_id ->
  get_user_by_socket_id sid (db s) = Some user ->
  result (leave_channel sid data) s = Returned tt
  /\ sent (exec (leave_channel sid data) s) =
       sent s ++ [Emit (Event.user_left (User.username user) channel_id)
                       (to_channel channel_id)].
Proof.
  intros Hc Hu. unfold leave_channel. rewrite Hc. unfold_handler. rewrite Hu.
  cbn. destruct (user_channels s !! sid); cbn; split; reflexivity.
Qed.

(** Channel 99 does not exist and s1 never joined it. *)
Lemma leave_channel_always_notifies_witness :
  find_channel_by_id 99 (db alice_online) = None
  /\ user_channels alice_online !! "s1"%string = Some ∅
  /\ result (leave_channel "s1" (with_channel 99)) alice_online = Returned tt
  /\ sent (exec (leave_channel "s1" (with_channel 99)) alice_online) =
       sent alice_online ++ [Emit (Event.user_left "alice" 99) (to_channel 99)].
Proof.
  split; [reflexivity|]. split; [reflexivity|].
  apply (leave_channel_always_notifies "s1" (with_channel 99) alice_online 99
           (User.mk 1 "alice" (Some "s1"%string) 1)); reflexivity.
Defined.

(** ** [join_app] *)

(** What [join_app] does with a user name that is present: it returns, the
    sid is bound to the name in [active_users], its channel set is replaced
    by a new empty set, and one [joined_app] goes to the caller. *)
Lemma join_app_run sid data now s username :
  Data.username data = Some username ->
  result (join_app sid data now) s = Returned tt
  /\ exists db' user_id,
       exec (join_app sid data now) s =
         mk_server db' (<[sid := username]> (active_users s))
           (<[sid := ∅]> (user_channels s)) (rooms s)
           (sent s ++ [Emit (Event.joined_app username user_id) (to_sid sid)]).
Proof.
  intros Hu. unfold join_app. rewrite Hu. unfold_handler.
  destruct (find_user_by_username username (db s)); cbn; eauto.
Qed.

(** C8: every [join_app] that carries a user name, a repeated one included,
    leaves the connection with an empty joined-channel set, whatever
    channels were recorded for it before. *)
Theorem join_app_resets_membership sid data now s username :
  Data.username data = Some username ->
  result (join_app sid data now) s = Returned tt
  /\ user_channels (exec (join_app sid data now) s) !! sid = Some ∅.
Proof.
  intros Hu. destruct (join_app_run sid data now s username Hu) as (Hr & d & i & He).
  split; [exact Hr|]. rewrite He. cbn. apply lookup_insert_eq.
Qed.

(** Connection s1, a member of channels 1 and 2, sends [join_app] again. *)
Lemma join_app_resets_membership_witness :
  user_channels alice_in_two !! "s1"%string = Some {[1; 2]}
  /\ result (join_app "s1" (with_username "alice") 9) alice_in_two = Returned tt
  /\ user_channels (exec (join_app "s1" (with_username "alice") 9) alice_in_two)
       !! "s1"%string = Some ∅.
Proof.
  split; [vm_compute; reflexivity|].
  apply (join_app_resets_membership "s1" (with_username "alice") 9 alice_in_two
           "alice"); reflexivity.
Defined.

(** C4, as the code has it: a [join_app] with no user name raises KeyError
    before anything is read or written; the state, and with it the users
    table, the active set and the emissions, is unchanged. *)
Theorem join_app_missing_username sid data now s :
  Data.username data = None ->
  result (join_app sid data now) s = Raised (KeyError "username")
  /\ exec (join_app sid data now) s = s.
Proof.
  intros Hu. unfold join_app. rewrite Hu. unfold_handler. auto.
Qed.

Lemma join_app_missing_username_witness :
  result (join_app "s1" Data.empty 1) seeded = Raised (KeyError "username")
  /\ exec (join_app "s1" Data.empty 1) seeded = seeded.
Proof.
  apply (join_app_missing_username "s1" Data.empty 1 seeded); reflexivity.
Defined.

(** C4 fails for the empty user name: it is taken like any other name.  On
    the seeded server a User row with the empty name is created, the
    connection enters the active set, and [joined_app] is emitted. *)
Lemma join_app_empty_username_accepted :
  let s' := exec (join_app "s1" (with_username EmptyString) 1) seeded in
  result (join_app "s1" (with_username EmptyString) 1) seeded = Returned tt
  /\ users (db seeded) = []
  /\ users (db s') = [User.mk 1 EmptyString (Some "s1"%string) 1]
  /\ active_users seeded !! "s1"%string = None
  /\ active_users s' !! "s1"%string = Some EmptyString
  /\ sent s' = sent seeded ++ [Emit (Event.joined_app EmptyString 1) (to_sid "s1")].
Proof. vm_compute. repeat split; reflexivity. Qed.

(** ** [create_channel] *)

Lemma find_channel_by_name_taken name d :
  (exists c, c ∈ channels d /\ Channel.name c = name) ->
  exists c, find_channel_by_name name d = Some c.
Proof.
  intros (c & Hin & Hn). unfold find_channel_by_name.
  destruct (find _ (channels d)) as [c'|] eqn:E; [eauto|].
  apply list_elem_of_In in Hin.
  pose proof (find_none _ _ E c Hin) as Hf. cbn in Hf.
  apply bool_decide_eq_false in Hf. contradiction.
Qed.

Lemma find_channel_by_name_free name d :
  (forall c, c ∈ channels d -> Channel.name c <> name) ->
  find_channel_by_name name d = None.
Proof.
  intros Hfree. unfold find_channel_by_name.
  destruct (find _ (channels d)) as [c|] eqn:E; [|reflexivity].
  apply find_some in E as [Hin Hn]. apply bool_decide_eq_true in Hn.
  apply list_elem_of_In in Hin. destruct (Hfree c Hin Hn).
Qed.

(** C6: for an identified connection, [create_channel] with a name some
    Channel row already has emits one [error] to the requester alone and
    leaves the channels table as it was (no [channel_created]); with a name
    no row has, it appends the new Channel row and emits one
    [channel_created] addressed to everybody. *)
Theorem create_channel_collision_or_broadcast sid data now s name user :
  Data.name data = Some name ->
  get_user_by_socket_id sid (db s) = Some user ->
  let s' := exec (create_channel sid data now) s in
  let new_channel :=
    Channel.mk (next_id (map Channel.id (channels (db s)))) name
      (Some (default EmptyString (Data.description data))) now in
  ((exists c, c ∈ channels (db s) /\ Channel.name c = name) ->
     channels (db s') = channels (db s)
     /\ sent s' = sent s ++ [Emit (Event.error (already_exists name)) (to_sid sid)])
  /\ ((forall c, c ∈ channels (db s) -> Channel.name c <> name) ->
     channels (db s') = channels (db s) ++ [new_channel]
     /\ sent s' =
          sent s ++ [Emit (Event.channel_created (Channel.id new_channel) name
                             (Channel.description new_channel)) to_all]).
Proof.
  intros Hn Hu. unfold create_channel. rewrite Hn. unfold_handler. rewrite Hu.
  split.
  - intros [c Hc]%find_channel_by_name_taken. rewrite Hc. cbn. auto.
  - intros Hfree%find_channel_by_name_free. rewrite Hfree. cbn. auto.
Qed.

(** On the seeded server alice asks for [general] again. *)
Lemma create_channel_collision_or_broadcast_witness :
  let s' := exec (create_channel "s1" (with_name "general") 5) alice_online in
  channels (db s') = channels (db alice_online)
  /\ sent s' =
       sent alice_online ++ [Emit (Event.error (already_exists "general")) (to_sid "s1")].
Proof.
  refine (proj1 (create_channel_collision_or_broadcast "s1" (with_name "general") 5
                   alice_online "general"
                   (User.mk 1 "alice" (Some "s1"%string) 1) _ _) _);
    [reflexivity | reflexivity |].
  exists (Channel.mk 1 "general" (Some "General discussion"%string) 0).
  split; [|reflexivity]. vm_compute. left.
Defined.

(** ** [disconnect] *)

Lemma for_each_emit {A} (xs : list A) (e : A -> Event.t) (to : A -> target) s :
  for_each xs (fun x => emit (e x) (to x)) s =
    (Returned tt,
     mk_server (db s) (active_users s) (user_channels s) (rooms s)
       (sent s ++ map (fun x => Emit (e x) (to x)) xs)).
Proof.
  revert s. induction xs as [|x xs IH]; intros s; cbn.
  - unfold_handler. rewrite app_nil_r. destruct s; reflexivity.
  - unfold_handler. rewrite IH. cbn. rewrite <- app_assoc. reflexivity.
Qed.

(** What [disconnect] does for a connection that a User row still points
    to and that has its two dict entries. *)
Lemma disconnect_run sid s user username chans :
  get_user_by_socket_id sid (db s) = Some user ->
  active_users s !! sid = Some username ->
  user_channels s !! sid = Some chans ->
  exec (disconnect sid) s =
    mk_server (update_socket_id (User.id user) None (db s))
      (delete sid (active_users s)) (delete sid (user_channels s)) (rooms s)
      (sent s ++ map (fun c => Emit (Event.user_left username c) (to_channel c))
                     (elements chans)).
Proof.
  intros Hu Ha Hc. unfold disconnect. unfold_handler. rewrite Hu. cbn.
  rewrite Ha. cbn. rewrite Hc.
  pose proof (for_each_emit (elements chans) (Event.user_left username)
                (fun c => to_room (channel_room c) None)) as Hfor.
  unfold_handler. rewrite Hfor. cbn. reflexivity.
Qed.

(** C2: an identified session whose joined-channel set is {A, B}
    disconnects: the emissions it adds are one [user_left] to the room of A
    and one to the room of B (a single one when A and B are the same
    channel) and nothing else, and its entries are gone from
    [active_users] and from [user_channels]. *)
Theorem disconnect_notifies_each_channel sid s user username A B :
  get_user_by_socket_id sid (db s) = Some user ->
  active_users s !! sid = Some username ->
  user_channels s !! sid = Some {[A; B]} ->
  let s' := exec (disconnect sid) s in
  let left c := Emit (Event.user_left username c) (to_channel c) in
  (exists new, sent s' = sent s ++ new
               /\ new ≡ₚ (if decide (A = B) then [left A] else [left A; left B]))
  /\ active_users s' !! sid = None
  /\ user_channels s' !! sid = None.
Proof.
  intros Hu Ha Hc. cbn zeta.
  rewrite (disconnect_run sid s user username {[A; B]} Hu Ha Hc). cbn.
  split; [|split; apply lookup_delete_eq].
  eexists. split; [reflexivity|].
  destruct (decide (A = B)) as [->|Hne].
  - rewrite (union_idemp_L ({[B]} : gset Z)), elements_singleton. reflexivity.
  - rewrite elements_union_singleton, elements_singleton; [reflexivity|].
    rewrite elem_of_singleton. exact Hne.
Qed.

Lemma disconnect_notifies_each_channel_witness :
  let s' := exec (disconnect "s1") alice_in_two in
  let left c := Emit (Event.user_left "alice" c) (to_channel c) in
  (exists new, sent s' = sent alice_in_two ++ new /\ new ≡ₚ [left 1; left 2])
  /\ active_users s' !! "s1"%string = None
  /\ user_channels s' !! "s1"%string = None.
Proof.
  apply (disconnect_notifies_each_channel "s1" alice_in_two
           (User.mk 1 "alice" (Some "s1"%string) 1) "alice" 1 2);
    vm_compute; reflexivity.
Defined.

(** ** [get_channel_messages] *)

Lemma insert_desc_Permutation m l : insert_desc m l ≡ₚ m :: l.
Proof.
  induction l as [|x l IH]; cbn; [reflexivity|].
  destruct (Message.timestamp m <? Message.timestamp x); [|reflexivity].
  rewrite IH. apply perm_swap.
Qed.

Lemma order_by_timestamp_desc_Permutation l : order_by_timestamp_desc l ≡ₚ l.
Proof.
  induction l as [|m l IH]; cbn; [reflexivity|].
  rewrite insert_desc_Permutation. f_equiv. exact IH.
Qed.

Lemma insert_desc_sorted m l :
  StronglySorted (flip not_after) l ->
  StronglySorted (flip not_after) (insert_desc m l).
Proof.
  unfold flip, not_after.
  induction l as [|x l IH]; cbn; intros Hs.
  - repeat constructor.
  - apply StronglySorted_cons in Hs as [Hx Hl].
    destruct (Z.ltb_spec (Message.timestamp m) (Message.timestamp x)).
    + apply StronglySorted_cons. split; [|auto].
      rewrite insert_desc_Permutation. constructor; [lia | exact Hx].
    + apply StronglySorted_cons. split; [|apply StronglySorted_cons; auto].
      constructor; [lia|]. eapply Forall_impl; [exact Hx|]. cbn. intros; lia.
Qed.

Lemma order_by_timestamp_desc_sorted l :
  StronglySorted (flip not_after) (order_by_timestamp_desc l).
Proof.
  induction l as [|m l IH]; cbn; [constructor | apply insert_desc_sorted, IH].
Qed.

Lemma StronglySorted_reverse {A} (R : relation A) (l : list A) :
  StronglySorted R l -> StronglySorted (flip R) (reverse l).
Proof.
  induction 1 as [|x l Hl IH Hx]; [rewrite reverse_nil; constructor|].
  rewrite reverse_cons. apply StronglySorted_app_2.
  - intros a b Ha Hb. apply list_elem_of_singleton in Hb as ->.
    rewrite elem_of_reverse in Ha. rewrite Forall_forall in Hx. apply Hx, Ha.
  - exact IH.
  - repeat constructor.
Qed.

(** Rows that were appended with strictly increasing timestamps come out of
    the sort exactly reversed. *)
Lemma insert_desc_oldest m l :
  Forall (before m) l -> insert_desc m l = l ++ [m].
Proof.
  unfold before. induction 1 as [|x l Hx Hl IH]; cbn; [reflexivity|].
  destruct (Z.ltb_spec (Message.timestamp m) (Message.timestamp x)); [|lia].
  rewrite IH. reflexivity.
Qed.

Lemma order_by_timestamp_desc_increasing l :
  StronglySorted before l -> order_by_timestamp_desc l = reverse l.
Proof.
  unfold order_by_timestamp_desc.
  induction 1 as [|m l Hl IH Hm]; cbn [foldr]; [reflexivity|].
  rewrite IH, reverse_cons. apply insert_desc_oldest.
  apply Forall_reverse, Hm.
Qed.

(** C7, as the code has it: [get_channel_messages] returns at most [limit]
    rows (all of the channel's when there are no more than that), ordered
    by non-decreasing timestamp; together with the rows left out they are
    the channel's rows, each once, and no row left out is newer than a row
    returned.  When the channel's rows were appended with strictly
    increasing timestamps, the result is the last [limit] rows in append
    order. *)
Theorem get_channel_messages_recent channel_id d limit :
  let all := of_channel channel_id d in
  let r := get_channel_messages channel_id d limit in
  (length r <= limit)%nat
  /\ length r = Nat.min limit (length all)
  /\ StronglySorted not_after r
  /\ (exists older, older ++ r ≡ₚ all
                    /\ forall o m, o ∈ older -> m ∈ r -> not_after o m)
  /\ (StronglySorted before all -> r = drop (length all - limit) all).
Proof.
  cbn zeta. unfold get_channel_messages.
  set (all := of_channel channel_id d).
  pose proof (order_by_timestamp_desc_sorted all) as Hs.
  pose proof (order_by_timestamp_desc_Permutation all) as Hp.
  assert (Hlen : length (reverse (take limit (order_by_timestamp_desc all)))
                 = Nat.min limit (length all)).
  { rewrite length_reverse, length_take, Hp. reflexivity. }
  split; [rewrite Hlen; lia|]. split; [exact Hlen|]. split; [|split].
  - rewrite <- (take_drop limit) in Hs.
    apply StronglySorted_app_1_l, StronglySorted_reverse in Hs. exact Hs.
  - exists (drop limit (order_by_timestamp_desc all)). split.
    + rewrite reverse_Permutation, (comm (++)), take_drop. exact Hp.
    + intros o m Ho Hm. rewrite elem_of_reverse in Hm.
      rewrite <- (take_drop limit) in Hs.
      exact (StronglySorted_app_1_elem_of _ _ _ _ _ Hs Hm Ho).
  - intros Hinc. rewrite (order_by_timestamp_desc_increasing all Hinc).
    rewrite take_reverse, reverse_involutive. reflexivity.
Qed.

(** C7 fails on "consistent with append order": after the clock stepped
    back between two messages, the row appended second is returned first. *)
Lemma get_channel_messages_reorders :
  let first := Message.mk 1 (text "first") 1 1 10 in
  let second := Message.mk 2 (text "second") 1 1 5 in
  messages (db clock_stepped_back) = [first; second]
  /\ get_channel_messages 1 (db clock_stepped_back) 50 = [second; first].
Proof. vm_compute. split; reflexivity. Qed.

(** ** [join_channel] and [leave_channel] *)

Lemma get_channel_messages_stored channel_id d limit m :
  m ∈ get_channel_messages channel_id d limit -> m ∈ messages d.
Proof.
  unfold get_channel_messages, of_channel. rewrite elem_of_reverse.
  intros Hm%subseteq_take.
  rewrite order_by_timestamp_desc_Permutation in Hm.
  apply list_elem_of_filter in Hm as [_ Hm]. exact Hm.
Qed.

Lemma message_data_run msg s :
  message_data msg s =
    (match find_user_by_id (Message.user_id msg) (db s) with
     | Some user =>
         Returned (MessageData.mk (Message.id msg) (Message.content msg)
                     (User.username user) (Message.timestamp msg)
                     (Message.channel_id msg))
     | None => Raised (AttributeError "username")
     end, s).
Proof.
  unfold message_data. unfold_handler.
  destruct (find_user_by_id (Message.user_id msg) (db s)); reflexivity.
Qed.

Lemma mapM_cons (m : Message.t) msgs s :
  mapM message_data (m :: msgs) s =
    match message_data m s with
    | (Returned y, s') =>
        match mapM message_data msgs s' with
        | (Returned k, s'') => (Returned (y :: k), s'')
        | (Raised e, s'') => (Raised e, s'')
        end
    | (Raised e, s') => (Raised e, s')
    end.
Proof.
  change (mapM message_data (m :: msgs))
    with (y ← message_data m; k ← mapM message_data msgs; mret (y :: k)).
  unfold mbind, handler_bind, mret, handler_ret.
  destruct (message_data m s) as [[y|e] s']; [|reflexivity].
  destruct (mapM message_data msgs s') as [[k|e] s'']; reflexivity.
Qed.

(** Building the history only reads the database. *)
Lemma history_state msgs s : snd (mapM message_data msgs s) = s.
Proof.
  induction msgs as [|m msgs IH]; [reflexivity|].
  rewrite mapM_cons, message_data_run.
  destruct (find_user_by_id (Message.user_id m) (db s)); [|reflexivity].
  destruct (mapM message_data msgs s) as [[h|e] s']; exact IH.
Qed.

(** It returns when the authors of the messages exist. *)
Lemma history_returns msgs s :
  (forall m, m ∈ msgs -> find_user_by_id (Message.user_id m) (db s) <> None) ->
  exists history,
    mapM message_data msgs s = (Returned history, s)
    /\ map MessageData.id history = map Message.id msgs.
Proof.
  induction msgs as [|m msgs IH]; intros Hall.
  - exists []. split; reflexivity.
  - destruct IH as (h & Hh & Hids).
    { intros x Hx. apply Hall. right. exact Hx. }
    rewrite mapM_cons, message_data_run.
    destruct (find_user_by_id (Message.user_id m) (db s)) as [u|] eqn:E.
    + rewrite Hh. eexists. split; [reflexivity|]. cbn. congruence.
    + destruct (Hall m); [left | exact E].
Qed.

(** What [join_channel] does for an identified connection and an existing
    channel, on a database whose messages have their authors. *)
Lemma join_channel_run sid data s channel_id user channel :
  Data.channel_id data = Some channel_id ->
  get_user_by_socket_id sid (db s) = Some user ->
  find_channel_by_id channel_id (db s) = Some channel ->
  authors_exist (db s) ->
  exists history,
    join_channel sid data s =
      (Returned tt,
       mk_server (db s) (active_users s)
         (match user_channels s !! sid with
          | Some chans => <[sid := chans ∪ {[channel_id]}]> (user_channels s)
          | None => user_channels s
          end)
         ({[ (channel_id, sid) ]} ∪ rooms s)
         (sent s ++ [Emit (Event.channel_joined channel_id (Channel.name channel) history)
                          (to_sid sid);
                     Emit (Event.user_joined (User.username user) channel_id)
                          (to_room (channel_room channel_id) (Some sid))])).
Proof.
  intros Hc Hu Hch Hfk.
  assert (Hh : forall s', db s' = db s ->
             exists history,
               mapM message_data (get_channel_messages channel_id (db s) 50) s'
               = (Returned history, s')).
  { intros s' Hdb. destruct (history_returns (get_channel_messages channel_id (db s) 50) s')
      as (h & Hh & _); [|eauto].
    intros m Hm%get_channel_messages_stored. rewrite Hdb. apply Hfk, Hm. }
  unfold join_channel. rewrite Hc. unfold_handler. rewrite Hu, Hch. cbn.
  destruct (user_channels s !! sid) as [chans|]; cbn.
  all: match goal with
       | |- context [@mapM ?M ?B ?R ?X ?Y ?f ?l ?st] =>
           destruct (Hh st eq_refl) as [h Hrun];
           change (@mapM M B R X Y f l st = (Returned h, st)) in Hrun;
           rewrite Hrun
       end.
  all: cbn; rewrite <- app_assoc; eauto.
Qed.

(** What [leave_channel] does for an identified connection. *)
Lemma leave_channel_run sid data s channel_id user :
  Data.channel_id data = Some channel_id ->
  get_user_by_socket_id sid (db s) = Some user ->
  leave_channel sid data s =
    (Returned tt,
     mk_server (db s) (active_users s)
       (match user_channels s !! sid with
        | Some chans => <[sid := chans ∖ {[channel_id]}]> (user_channels s)
        | None => user_channels s
        end)
       (rooms s ∖ {[ (channel_id, sid) ]})
       (sent s ++ [Emit (Event.user_left (User.username user) channel_id)
                        (to_channel channel_id)])).
Proof.
  intros Hc Hu. unfold leave_channel. rewrite Hc. unfold_handler. rewrite Hu. cbn.
  destruct (user_channels s !! sid); reflexivity.
Qed.

(** The membership [join_channel] leaves behind, whether or not the
    history could be built. *)
Lemma join_channel_state sid data s channel_id user channel :
  Data.channel_id data = Some channel_id ->
  get_user_by_socket_id sid (db s) = Some user ->
  find_channel_by_id channel_id (db s) = Some channel ->
  db (exec (join_channel sid data) s) = db s
  /\ user_channels (exec (join_channel sid data) s) =
       match user_channels s !! sid with
       | Some chans => <[sid := chans ∪ {[channel_id]}]> (user_channels s)
       | None => user_channels s
       end.
Proof.
  intros Hc Hu Hch. unfold join_channel. rewrite Hc. unfold_handler.
  rewrite Hu, Hch. cbn.
  destruct (user_channels s !! sid) as [chans|]; cbn.
  all: match goal with
       | |- context [@mapM ?M ?B ?R ?X ?Y ?f ?l ?st] =>
           pose proof (history_state l st) as Hst;
           change (snd (@mapM M B R X Y f l st) = st) in Hst;
           destruct (@mapM M B R X Y f l st) as [[h|e] st']
       end.
  all: cbn in Hst; subst st'; cbn; auto.
Qed.

(** C3, as the code has it.  For an identified connection and an existing
    channel: [join_channel] then [leave_channel] leaves the connection's
    channel set as it was before the join minus that channel, so it
    restores [user_channels] when the connection was not a member before;
    a [join_channel] by a member and a [leave_channel] by a non-member
    leave [user_channels] unchanged; every [leave_channel] emits one
    [user_left] to the channel, and every [join_channel], on a database
    whose messages have their authors, one [channel_joined] to the caller
    and one [user_joined] to the others in the channel. *)
Theorem join_leave_channel_membership sid data s channel_id user channel :
  Data.channel_id data = Some channel_id ->
  get_user_by_socket_id sid (db s) = Some user ->
  find_channel_by_id channel_id (db s) = Some channel ->
  let joined := exec (join_channel sid data) s in
  let left := exec (leave_channel sid data) s in
  let back := exec (leave_channel sid data) joined in
  let member := channel_id ∈ default ∅ (user_channels s !! sid) in
  user_channels back !! sid = (fun chans => chans ∖ {[channel_id]}) <$> user_channels s !! sid
  /\ (~ member -> user_channels back = user_channels s)
  /\ (member -> user_channels joined = user_channels s)
  /\ (~ member -> user_channels left = user_channels s)
  /\ sent left =
       sent s ++ [Emit (Event.user_left (User.username user) channel_id)
                       (to_channel channel_id)]
  /\ (authors_exist (db s) ->
      exists history,
        sent joined =
          sent s ++ [Emit (Event.channel_joined channel_id (Channel.name channel) history)
                          (to_sid sid);
                     Emit (Event.user_joined (User.username user) channel_id)
                          (to_room (channel_room channel_id) (Some sid))]).
Proof.
  intros Hc Hu Hch. cbn zeta.
  destruct (join_channel_state sid data s channel_id user channel Hc Hu Hch)
    as [Hdb Hjoined].
  assert (Hu' : get_user_by_socket_id sid (db (exec (join_channel sid data) s))
                = Some user) by (rewrite Hdb; exact Hu).
  assert (Hset : forall chans : gset Z,
             (chans ∪ {[channel_id]}) ∖ {[channel_id]} = chans ∖ {[channel_id]}).
  { intros chans. apply set_eq. intros x.
    rewrite !elem_of_difference, elem_of_union. tauto. }
  assert (Hout : forall chans : gset Z,
             channel_id ∉ chans -> chans ∖ {[channel_id]} = chans).
  { intros chans Hn. apply set_eq. intros x.
    rewrite elem_of_difference, elem_of_singleton. split; [tauto|].
    intros Hx. split; [exact Hx | congruence]. }
  assert (Hin : forall chans : gset Z,
             channel_id ∈ chans -> chans ∪ {[channel_id]} = chans).
  { intros chans Hm. apply set_eq. intros x.
    rewrite elem_of_union, elem_of_singleton. split; [|tauto].
    intros [Hx| ->]; assumption. }
  set (joined := exec (join_channel sid data) s) in *.
  assert (Hleave : forall t, get_user_by_socket_id sid (db t) = Some user ->
             exec (leave_channel sid data) t
             = snd (leave_channel sid data t)) by reflexivity.
  rewrite (Hleave joined Hu'), (Hleave s Hu).
  rewrite (leave_channel_run sid data joined channel_id user Hc Hu').
  rewrite (leave_channel_run sid data s channel_id user Hc Hu).
  cbn [snd user_channels sent]. rewrite Hjoined.
  destruct (user_channels s !! sid) as [chans|] eqn:E; cbn [default fmap option_fmap option_map].
  - rewrite lookup_insert_eq, insert_insert_eq, lookup_insert_eq, Hset.
    split; [reflexivity|]. split; [|split; [|split; [|split]]].
    + intros Hn. cbn in Hn. apply insert_id. rewrite E, (Hout _ Hn). reflexivity.
    + intros Hm. cbn in Hm. apply insert_id. rewrite E, (Hin _ Hm). reflexivity.
    + intros Hn. cbn in Hn. apply insert_id. rewrite E, (Hout _ Hn). reflexivity.
    + reflexivity.
    + intros Hfk.
      destruct (join_channel_run sid data s channel_id user channel Hc Hu Hch Hfk)
        as [history Hrun].
      exists history. unfold joined, exec. rewrite Hrun. reflexivity.
  - rewrite ?E. cbn. rewrite ?E. split; [reflexivity|]. do 4 (split; [reflexivity|]).
    intros Hfk.
    destruct (join_channel_run sid data s channel_id user channel Hc Hu Hch Hfk)
      as [history Hrun].
    exists history. unfold joined, exec. rewrite Hrun. reflexivity.
Qed.

(** On the seeded server alice, who is in no channel yet, joins channel 1
    and leaves it again; then leaves it once more. *)
Lemma join_leave_channel_membership_witness :
  let joined := exec (join_channel "s1" (with_channel 1)) alice_online in
  let left := exec (leave_channel "s1" (with_channel 1)) alice_online in
  let back := exec (leave_channel "s1" (with_channel 1)) joined in
  user_channels back = user_channels alice_online
  /\ user_channels left = user_channels alice_online
  /\ sent left = sent alice_online ++ [Emit (Event.user_left "alice" 1) (to_channel 1)].
Proof.
  assert (Hnot : ~ 1 ∈ default (∅ : gset Z) (user_channels alice_online !! "s1"%string)).
  { vm_compute. intros H. inversion H. }
  destruct (join_leave_channel_membership "s1" (with_channel 1) alice_online 1
              (User.mk 1 "alice" (Some "s1"%string) 1)
              (Channel.mk 1 "general" (Some "General discussion"%string) 0)
              eq_refl eq_refl eq_refl)
    as (_ & Hback & _ & Hleft & Hsent & _).
  split; [exact (Hback Hnot)|]. split; [exact (Hleft Hnot) | exact Hsent].
Defined.

(** C3 fails on the round trip when the connection was already a member:
    alice is in channel 1, joins it again and leaves it; her channel set
    is then empty, not {1}. *)
Lemma join_leave_channel_not_restored :
  let joined := exec (join_channel "s1" (with_channel 1)) alice_in_general in
  let back := exec (leave_channel "s1" (with_channel 1)) joined in
  get_user_by_socket_id "s1" (db alice_in_general)
    = Some (User.mk 1 "alice" (Some "s1"%string) 1)
  /\ find_channel_by_id 1 (db alice_in_general)
       = Some (Channel.mk 1 "general" (Some "General discussion"%string) 0)
  /\ user_channels alice_in_general !! "s1"%string = Some {[1]}
  /\ user_channels back !! "s1"%string = Some ∅.
Proof. vm_compute. repeat split; reflexivity. Qed.

(** ** Sessions that outlive their connection *)

(** C1 fails after a rebind.  Connection s1 is alice and a member of
    channel 1; connection s2 then says it is alice too, which moves the
    [socket_id] of the User row to s2.  When s1 disconnects, no row points
    to s1 any more, so the handler does nothing: s1 keeps its entries in
    [active_users] and [user_channels], and channel 1 gets no [user_left]. *)
Theorem disconnect_after_rebind_keeps_membership :
  let s' := exec (disconnect "s1") alice_rebound in
  get_user_by_socket_id "s1" (db alice_rebound) = None
  /\ user_channels alice_rebound !! "s1"%string = Some {[1]}
  /\ result (disconnect "s1") alice_rebound = Returned tt
  /\ user_channels s' !! "s1"%string = Some {[1]}
  /\ active_users s' !! "s1"%string = Some "alice"%string
  /\ sent s' = sent alice_rebound.
Proof. vm_compute. repeat split; reflexivity. Qed.

(** ** The two dicts stay in step *)

Lemma in_sync_lookup s sid :
  in_sync s -> active_users s !! sid = None <-> user_channels s !! sid = None.
Proof.
  unfold in_sync. intros H. rewrite <- !not_elem_of_dom, H. reflexivity.
Qed.

Lemma disconnect_in_sync sid s : in_sync s -> in_sync (exec (disconnect sid) s).
Proof.
  intros Hs. unfold disconnect. unfold_handler.
  destruct (get_user_by_socket_id sid (db s)) as [u|]; cbn; [|exact Hs].
  destruct (active_users s !! sid) as [name|] eqn:Ea; cbn; [|exact Hs].
  destruct (user_channels s !! sid) as [chans|] eqn:Ec; cbn.
  - pose proof (for_each_emit (elements chans) (Event.user_left name)
                  (fun c => to_room (channel_room c) None)) as Hfor.
    unfold_handler. rewrite Hfor. cbn.
    unfold in_sync in *. cbn. rewrite !dom_delete_L, Hs. reflexivity.
  - apply (in_sync_lookup s sid Hs) in Ec. congruence.
Qed.

Lemma join_app_in_sync sid data now s :
  in_sync s -> in_sync (exec (join_app sid data now) s).
Proof.
  intros Hs. destruct (Data.username data) as [username|] eqn:Eu.
  - destruct (join_app_run sid data now s username Eu) as (_ & d & i & He).
    rewrite He. unfold in_sync in *. cbn. rewrite !dom_insert_L, Hs. reflexivity.
  - unfold join_app. rewrite Eu. unfold_handler. exact Hs.
Qed.

Lemma dom_insert_member (m : gmap string (gset Z)) sid old new :
  m !! sid = Some old -> dom (<[sid := new]> m) = dom m.
Proof.
  intros H. rewrite dom_insert_L.
  assert (sid ∈ dom m) by (apply elem_of_dom; eauto).
  apply set_eq. intros x. rewrite elem_of_union, elem_of_singleton.
  split; [intros [->|]; assumption | auto].
Qed.

Lemma join_channel_in_sync sid data s :
  in_sync s -> in_sync (exec (join_channel sid data) s).
Proof.
  intros Hs. unfold join_channel.
  destruct (Data.channel_id data) as [channel_id|]; unfold_handler; [|exact Hs].
  destruct (get_user_by_socket_id sid (db s)) as [u|]; cbn; [|exact Hs].
  destruct (find_channel_by_id channel_id (db s)) as [c|]; cbn; [|exact Hs].
  destruct (user_channels s !! sid) as [chans|] eqn:Ec; cbn.
  all: match goal with
       | |- context [@mapM ?M ?B ?R ?X ?Y ?f ?l ?st] =>
           pose proof (history_state l st) as Hst;
           change (snd (@mapM M B R X Y f l st) = st) in Hst;
           destruct (@mapM M B R X Y f l st) as [[h|e] st']
       end.
  all: cbn in Hst; subst st'; unfold in_sync in *; cbn; try exact Hs.
  all: rewrite (dom_insert_member _ _ _ _ Ec); exact Hs.
Qed.

Lemma leave_channel_in_sync sid data s :
  in_sync s -> in_sync (exec (leave_channel sid data) s).
Proof.
  intros Hs. unfold leave_channel.
  destruct (Data.channel_id data) as [channel_id|]; unfold_handler; [|exact Hs].
  destruct (get_user_by_socket_id sid (db s)) as [u|]; cbn; [|exact Hs].
  destruct (user_channels s !! sid) as [chans|] eqn:Ec; cbn;
    unfold in_sync in *; cbn; [|exact Hs].
  rewrite (dom_insert_member _ _ _ _ Ec). exact Hs.
Qed.

Lemma send_message_in_sync sid data now s :
  in_sync s -> in_sync (exec (send_message sid data now) s).
Proof.
  intros Hs. unfold send_message.
  destruct (Data.channel_id data) as [channel_id|]; unfold_handler; [|exact Hs].
  destruct (Data.content data) as [content|]; cbn; [|exact Hs].
  destruct (get_user_by_socket_id sid (db s)) as [u|]; cbn; [|exact Hs].
  destruct (find_channel_by_id channel_id (db s)) as [c|]; cbn; [|exact Hs].
  destruct (truthy (strip content)); cbn; exact Hs.
Qed.

Lemma create_channel_in_sync sid data now s :
  in_sync s -> in_sync (exec (create_channel sid data now) s).
Proof.
  intros Hs. unfold create_channel.
  destruct (Data.name data) as [name|]; unfold_handler; [|exact Hs].
  destruct (get_user_by_socket_id sid (db s)) as [u|]; cbn; [|exact Hs].
  destruct (find_channel_by_name name (db s)) as [c|]; cbn; exact Hs.
Qed.

Lemma handle_in_sync sid r s : in_sync s -> in_sync (exec (handle sid r) s).
Proof.
  destruct r; cbn [handle];
    eauto using disconnect_in_sync, join_app_in_sync, join_channel_in_sync,
      leave_channel_in_sync, send_message_in_sync, create_channel_in_sync.
Qed.

Lemma run_preserves_in_sync events s : in_sync s -> in_sync (run events s).
Proof.
  unfold run. revert s. induction events as [|[sid r] events IH]; intros s Hs.
  - exact Hs.
  - cbn. apply IH, handle_in_sync, Hs.
Qed.

(** The invariant of the membership table: whatever events the server has
    handled since it started, a connection has a joined-channel set in
    [user_channels] exactly when it has an entry in [active_users]. *)
Theorem membership_only_for_active events sid :
  let s := run events initial in
  is_Some (user_channels s !! sid) <-> is_Some (active_users s !! sid).
Proof.
  cbn zeta. assert (Hs : in_sync (run events initial)).
  { apply run_preserves_in_sync. reflexivity. }
  rewrite <- !elem_of_dom, Hs. reflexivity.
Qed.

(** A connection that a User row still points to is purged by its
    [disconnect]: neither dict keeps an entry for it. *)
Theorem disconnect_purges_bound_connection sid s user :
  in_sync s ->
  get_user_by_socket_id sid (db s) = Some user ->
  let s' := exec (disconnect sid) s in
  active_users s' !! sid = None /\ user_channels s' !! sid = None.
Proof.
  intros Hs Hu. cbn zeta.
  destruct (active_users s !! sid) as [name|] eqn:Ea.
  - destruct (user_channels s !! sid) as [chans|] eqn:Ec.
    + rewrite (disconnect_run sid s user name chans Hu Ea Ec). cbn.
      split; apply lookup_delete_eq.
    + apply (in_sync_lookup s sid Hs) in Ec. congruence.
  - assert (He : exec (disconnect sid) s
                 = mk_server (update_socket_id (User.id user) None (db s))
                     (active_users s) (user_channels s) (rooms s) (sent s)).
    { unfold disconnect. unfold_handler. rewrite Hu. cbn. rewrite Ea. reflexivity. }
    rewrite He. cbn. split; [exact Ea | apply (in_sync_lookup s sid Hs), Ea].
Qed.

Lemma disconnect_purges_bound_connection_witness :
  let s' := exec (disconnect "s2") alice_rebound in
  active_users s' !! "s2"%string = None /\ user_channels s' !! "s2"%string = None.
Proof.
  apply (disconnect_purges_bound_connection "s2" alice_rebound
           (User.mk 1 "alice" (Some "s2"%string) 1));
    [vm_compute; reflexivity | vm_compute; reflexivity].
Defined.

(** * The rest of the handlers' behaviour *)

(** ** Lookups and keys *)

Lemma find_app {A} (f : A -> bool) (l k : list A) :
  find f (l ++ k) = match find f l with Some x => Some x | None => find f k end.
Proof.
  induction l as [|x l IH]; cbn; [reflexivity|].
  destruct (f x); [reflexivity | exact IH].
Qed.

Lemma find_elem_of {A} (f : A -> bool) (l : list A) x :
  find f l = Some x -> x ∈ l /\ f x = true.
Proof.
  intros [Hin Hf]%find_some. split; [apply list_elem_of_In, Hin | exact Hf].
Qed.

Lemma find_is_None {A} (f : A -> bool) (l : list A) :
  find f l = None <-> forall x, x ∈ l -> f x = false.
Proof.
  split.
  - intros H x Hx. apply (find_none f l H), list_elem_of_In, Hx.
  - intros H. destruct (find f l) as [x|] eqn:E; [|reflexivity].
    apply find_elem_of in E as [Hin Hf]. rewrite (H x Hin) in Hf. discriminate.
Qed.

Lemma get_user_by_socket_id_elem sid d u :
  get_user_by_socket_id sid d = Some u -> u ∈ users d /\ User.socket_id u = Some sid.
Proof.
  intros [Hin Hf]%find_elem_of. split; [exact Hin|].
  apply bool_decide_eq_true in Hf. exact Hf.
Qed.

Lemma find_user_by_id_known i d :
  find_user_by_id i d <> None <-> i ∈ map User.id (users d).
Proof.
  unfold find_user_by_id. rewrite list_elem_of_fmap. split.
  - destruct (find _ (users d)) as [u|] eqn:E; [|congruence].
    intros _. apply find_elem_of in E as [Hin Hf].
    apply bool_decide_eq_true in Hf. eauto.
  - intros (u & -> & Hin) Hnone.
    pose proof (proj1 (find_is_None _ _) Hnone u Hin) as Hf. cbn in Hf.
    apply bool_decide_eq_false in Hf. congruence.
Qed.

Lemma find_channel_by_id_known i d :
  find_channel_by_id i d <> None <-> i ∈ map Channel.id (channels d).
Proof.
  unfold find_channel_by_id. rewrite list_elem_of_fmap. split.
  - destruct (find _ (channels d)) as [c|] eqn:E; [|congruence].
    intros _. apply find_elem_of in E as [Hin Hf].
    apply bool_decide_eq_true in Hf. eauto.
  - intros (c & -> & Hin) Hnone.
    pose proof (proj1 (find_is_None _ _) Hnone c Hin) as Hf. cbn in Hf.
    apply bool_decide_eq_false in Hf. congruence.
Qed.

Lemma find_user_by_username_unknown username d :
  find_user_by_username username d = None ->
  username ∉ map User.username (users d).
Proof.
  unfold find_user_by_username. intros Hnone (u & -> & Hin)%list_elem_of_fmap.
  pose proof (proj1 (find_is_None _ _) Hnone u Hin) as Hf. cbn in Hf.
  apply bool_decide_eq_false in Hf. congruence.
Qed.

Lemma find_channel_by_name_unknown name d :
  find_channel_by_name name d = None ->
  name ∉ map Channel.name (channels d).
Proof.
  unfold find_channel_by_name. intros Hnone (c & -> & Hin)%list_elem_of_fmap.
  pose proof (proj1 (find_is_None _ _) Hnone c Hin) as Hf. cbn in Hf.
  apply bool_decide_eq_false in Hf. congruence.
Qed.

(** A new primary key is larger than every key of the table. *)
Lemma next_id_above ids i : i ∈ ids -> i < next_id ids.
Proof.
  unfold next_id. induction ids as [|j ids IH]; intros Hi.
  - inversion Hi.
  - cbn. apply elem_of_cons in Hi as [->|Hi]; [lia|]. specialize (IH Hi). lia.
Qed.

Lemma next_id_fresh ids : next_id ids ∉ ids.
Proof. intros H%next_id_above. lia. Qed.

Lemma NoDup_snoc_fresh {A} (l : list A) x : NoDup l -> x ∉ l -> NoDup (l ++ [x]).
Proof.
  intros Hl Hx. apply NoDup_app. split; [exact Hl|]. split.
  - intros y Hy Hy'. apply list_elem_of_singleton in Hy' as ->. contradiction.
  - apply NoDup_singleton.
Qed.

Lemma update_socket_id_keys i v d :
  map user_key (users (update_socket_id i v d)) = map user_key (users d).
Proof.
  unfold update_socket_id. cbn. rewrite map_map. apply map_ext.
  intros u. destruct (bool_decide (User.id u = i)); reflexivity.
Qed.

Lemma user_key_ids l : map User.id l = map (fun k => fst (fst k)) (map user_key l).
Proof. rewrite map_map. reflexivity. Qed.

Lemma user_key_names l : map User.username l = map (fun k => snd (fst k)) (map user_key l).
Proof. rewrite map_map. reflexivity. Qed.

Lemma update_socket_id_ids i v d :
  map User.id (users (update_socket_id i v d)) = map User.id (users d).
Proof. rewrite !user_key_ids, update_socket_id_keys. reflexivity. Qed.

Lemma update_socket_id_names i v d :
  map User.username (users (update_socket_id i v d)) = map User.username (users d).
Proof. rewrite !user_key_names, update_socket_id_keys. reflexivity. Qed.

(** ** What each handler leaves behind *)

Lemma disconnect_state sid s :
  disconnect sid s =
    (Returned tt,
     match get_user_by_socket_id sid (db s) with
     | None => s
     | Some user =>
         let d := update_socket_id (User.id user) None (db s) in
         match active_users s !! sid with
         | None => mk_server d (active_users s) (user_channels s) (rooms s) (sent s)
         | Some username =>
             match user_channels s !! sid with
             | None =>
                 mk_server d (delete sid (active_users s)) (user_channels s)
                   (rooms s) (sent s)
             | Some chans =>
                 mk_server d (delete sid (active_users s))
                   (delete sid (user_channels s)) (rooms s)
                   (sent s ++ map (fun c => Emit (Event.user_left username c)
                                              (to_channel c)) (elements chans))
             end
         end
     end).
Proof.
  unfold disconnect. unfold_handler.
  destruct (get_user_by_socket_id sid (db s)) as [u|]; cbn; [|reflexivity].
  destruct (active_users s !! sid) as [name|]; cbn; [|reflexivity].
  destruct (user_channels s !! sid) as [chans|]; cbn; [|reflexivity].
  pose proof (for_each_emit (elements chans) (Event.user_left name)
                (fun c => to_room (channel_room c) None)) as Hfor.
  unfold_handler. rewrite Hfor. reflexivity.
Qed.

Lemma join_app_state sid data now s username :
  Data.username data = Some username ->
  join_app sid data now s =
    (Returned tt,
     match find_user_by_username username (db s) with
     | Some user =>
         mk_server (update_socket_id (User.id user) (Some sid) (db s))
           (<[sid := username]> (active_users s)) (<[sid := ∅]> (user_channels s))
           (rooms s)
           (sent s ++ [Emit (Event.joined_app username (User.id user)) (to_sid sid)])
     | None =>
         let id := next_id (map User.id (users (db s))) in
         mk_server (add_user (User.mk id username (Some sid) now) (db s))
           (<[sid := username]> (active_users s)) (<[sid := ∅]> (user_channels s))
           (rooms s)
           (sent s ++ [Emit (Event.joined_app username id) (to_sid sid)])
     end).
Proof.
  intros Hu. unfold join_app. rewrite Hu. unfold_handler.
  destruct (find_user_by_username username (db s)); reflexivity.
Qed.

(** The history depends on the database only. *)
Lemma history_result msgs s t :
  db s = db t -> fst (mapM message_data msgs s) = fst (mapM message_data msgs t).
Proof.
  intros Hdb. induction msgs as [|m msgs IH]; [reflexivity|].
  rewrite !mapM_cons, !message_data_run, Hdb.
  destruct (find_user_by_id (Message.user_id m) (db t)); [|reflexivity].
  pose proof (history_state msgs s) as Hs. pose proof (history_state msgs t) as Ht.
  destruct (mapM message_data msgs s) as [[h|e] s'],
           (mapM message_data msgs t) as [[h'|e'] t']; cbn in *; congruence.
Qed.

Lemma join_channel_dropped sid data s channel_id :
  Data.channel_id data = Some channel_id ->
  get_user_by_socket_id sid (db s) = None \/ find_channel_by_id channel_id (db s) = None ->
  join_channel sid data s = (Returned tt, s).
Proof.
  intros Hc Hnone. unfold join_channel. rewrite Hc. unfold_handler.
  destruct Hnone as [-> | ->]; [reflexivity|].
  destruct (get_user_by_socket_id sid (db s)); reflexivity.
Qed.

(** For an identified connection and an existing channel [join_channel]
    enters the room and records the channel, then builds the history and,
    if that returns, emits its two events. *)
Lemma join_channel_effect sid data s channel_id user channel :
  Data.channel_id data = Some channel_id ->
  get_user_by_socket_id sid (db s) = Some user ->
  find_channel_by_id channel_id (db s) = Some channel ->
  let entered :=
    mk_server (db s) (active_users s)
      (match user_channels s !! sid with
       | Some chans => <[sid := chans ∪ {[channel_id]}]> (user_channels s)
       | None => user_channels s
       end)
      ({[ (channel_id, sid) ]} ∪ rooms s) (sent s) in
  join_channel sid data s =
    match fst (get_channel_messages_api channel_id s) with
    | Returned history =>
        (Returned tt,
         mk_server (db entered) (active_users entered) (user_channels entered)
           (rooms entered)
           (sent s ++ [Emit (Event.channel_joined channel_id (Channel.name channel)
                               history) (to_sid sid);
                       Emit (Event.user_joined (User.username user) channel_id)
                            (to_room (channel_room channel_id) (Some sid))]))
    | Raised e => (Raised e, entered)
    end.
Proof.
  intros Hc Hu Hch. cbn zeta.
  unfold get_channel_messages_api, join_channel. rewrite Hc. unfold_handler.
  rewrite Hu, Hch. cbn.
  destruct (user_channels s !! sid) as [chans|]; cbn.
  all: match goal with
       | |- context [@mapM ?M ?B ?R ?X ?Y ?f ?l ?st] =>
           pose proof (history_state l st) as Hst;
           pose proof (history_result l st s eq_refl) as Hres;
           change (snd (@mapM M B R X Y f l st) = st) in Hst;
           change (fst (@mapM M B R X Y f l st) = fst (@mapM M B R X Y f l s)) in Hres;
           destruct (@mapM M B R X Y f l st) as [o st']
       end.
  all: cbn in Hst, Hres; subst st' o.
  all: match goal with
       | |- context [@mapM ?M ?B ?R ?X ?Y ?f ?l ?st] =>
           destruct (@mapM M B R X Y f l st) as [[h|e] st']
       end.
  all: cbn; rewrite <- ?app_assoc; reflexivity.
Qed.

Lemma leave_channel_dropped sid data s channel_id :
  Data.channel_id data = Some channel_id ->
  get_user_by_socket_id sid (db s) = None ->
  leave_channel sid data s = (Returned tt, s).
Proof.
  intros Hc Hu. unfold leave_channel. rewrite Hc. unfold_handler. rewrite Hu.
  reflexivity.
Qed.

Lemma send_message_state sid data now s channel_id content :
  Data.channel_id data = Some channel_id ->
  Data.content data = Some content ->
  send_message sid data now s =
    (Returned tt,
     match get_user_by_socket_id sid (db s), find_channel_by_id channel_id (db s) with
     | Some user, Some channel =>
         if truthy (strip content) then
           let id := next_id (map Message.id (messages (db s))) in
           mk_server
             (add_message (Message.mk id content (User.id user) channel_id now) (db s))
             (active_users s) (user_channels s) (rooms s)
             (sent s ++ [Emit (Event.new_message
                                 (MessageData.mk id content (User.username user) now
                                    channel_id))
                              (to_channel channel_id)])
         else s
     | _, _ => s
     end).
Proof.
  intros Hc Ht. unfold send_message. rewrite Hc, Ht. unfold_handler.
  destruct (get_user_by_socket_id sid (db s)), (find_channel_by_id channel_id (db s));
    cbn; try reflexivity.
  destruct (truthy (strip content)); reflexivity.
Qed.

Lemma create_channel_state sid data now s name :
  Data.name data = Some name ->
  create_channel sid data now s =
    (Returned tt,
     match get_user_by_socket_id sid (db s) with
     | None => s
     | Some user =>
         match find_channel_by_name name (db s) with
         | Some _ =>
             mk_server (db s) (active_users s) (user_channels s) (rooms s)
               (sent s ++ [Emit (Event.error (already_exists name)) (to_sid sid)])
         | None =>
             let id := next_id (map Channel.id (channels (db s))) in
             let description := Some (default EmptyString (Data.description data)) in
             mk_server (add_channel (Channel.mk id name description now) (db s))
               (active_users s) (user_channels s) (rooms s)
               (sent s ++ [Emit (Event.channel_created id name description) to_all])
         end
     end).
Proof.
  intros Hn. unfold create_channel. rewrite Hn. unfold_handler.
  destruct (get_user_by_socket_id sid (db s)); cbn; [|reflexivity].
  destruct (find_channel_by_name name (db s)); reflexivity.
Qed.

Lemma get_channel_messages_api_run channel_id s :
  get_channel_messages_api channel_id s =
    mapM message_data (get_channel_messages channel_id (db s) 50) s.
Proof. reflexivity. Qed.


(** ** Events that are dropped, events that raise *)

(** An event of a connection that no User row points to, other than
    [join_app], changes nothing: no write, no room, no emission. *)
Theorem anonymous_events_dropped sid r s :
  get_user_by_socket_id sid (db s) = None ->
  is_join_app r = false ->
  exec (handle sid r) s = s /\ sent (exec (handle sid r) s) = sent s.
Proof.
  intros Hu Hr.
  assert (H : exec (handle sid r) s = s); [|rewrite H; auto].
  unfold exec. destruct r as [| |data now|data|data|data now|data now];
    cbn [handle]; try discriminate.
  - reflexivity.
  - rewrite disconnect_state, Hu. reflexivity.
  - destruct (Data.channel_id data) as [c|] eqn:Ec.
    + rewrite (join_channel_dropped sid data s c Ec); auto.
    + unfold join_channel. rewrite Ec. reflexivity.
  - destruct (Data.channel_id data) as [c|] eqn:Ec.
    + rewrite (leave_channel_dropped sid data s c Ec Hu). reflexivity.
    + unfold leave_channel. rewrite Ec. reflexivity.
  - destruct (Data.channel_id data) as [c|] eqn:Ec;
      [|unfold send_message; rewrite Ec; reflexivity].
    destruct (Data.content data) as [t|] eqn:Et;
      [|unfold send_message; rewrite Ec, Et; reflexivity].
    rewrite (send_message_state sid data now s c t Ec Et), Hu. reflexivity.
  - destruct (Data.name data) as [n|] eqn:En;
      [|unfold create_channel; rewrite En; reflexivity].
    rewrite (create_channel_state sid data now s n En), Hu. reflexivity.
Qed.

(** Connection s9 never sent [join_app]. *)
Lemma anonymous_events_dropped_witness :
  exec (handle "s9" (SendMessage (with_message 1 (text "hi")) 3)) alice_in_general
    = alice_in_general
  /\ sent (exec (handle "s9" (SendMessage (with_message 1 (text "hi")) 3))
             alice_in_general) = sent alice_in_general.
Proof.
  apply (anonymous_events_dropped "s9" (SendMessage (with_message 1 (text "hi")) 3)
           alice_in_general); reflexivity.
Defined.

(** A payload that lacks a key the handler reads makes it raise KeyError
    for the first such key, before it has read or written anything. *)
Theorem missing_key_raises sid r s key :
  missing_key r = Some key ->
  result (handle sid r) s = Raised (KeyError key)
  /\ exec (handle sid r) s = s.
Proof.
  unfold result, exec.
  destruct r as [| |data now|data|data|data now|data now]; cbn [handle missing_key];
    try discriminate.
  - unfold join_app. destruct (Data.username data); [discriminate|].
    intros [= <-]. auto.
  - unfold join_channel. destruct (Data.channel_id data); [discriminate|].
    intros [= <-]. auto.
  - unfold leave_channel. destruct (Data.channel_id data); [discriminate|].
    intros [= <-]. auto.
  - unfold send_message.
    destruct (Data.channel_id data); [|intros [= <-]; auto].
    destruct (Data.content data); [discriminate|]. intros [= <-]. auto.
  - unfold create_channel. destruct (Data.name data); [discriminate|].
    intros [= <-]. auto.
Qed.

(** A [send_message] with a channel id and no content. *)
Lemma missing_key_raises_witness :
  result (handle "s1" (SendMessage (with_channel 1) 3)) alice_in_general
    = Raised (KeyError "content")
  /\ exec (handle "s1" (SendMessage (with_channel 1) 3)) alice_in_general
     = alice_in_general.
Proof.
  apply (missing_key_raises "s1" (SendMessage (with_channel 1) 3) alice_in_general
           "content"); reflexivity.
Defined.




(** ** The writes of the handlers *)

Lemma handle_db_step sid r s : db_step (db s) (db (exec (handle sid r) s)).
Proof.
  unfold exec.
  destruct r as [| |data now|data|data|data now|data now]; cbn [handle].
  - apply step_none.
  - rewrite disconnect_state. cbn [snd].
    destruct (get_user_by_socket_id sid (db s)) as [u|] eqn:Eu; [|apply step_none].
    apply get_user_by_socket_id_elem in Eu as [Hin _].
    destruct (active_users s !! sid); [destruct (user_channels s !! sid)|];
      cbn; apply step_socket, Hin.
  - destruct (Data.username data) as [u|] eqn:Eu.
    + rewrite (join_app_state sid data now s u Eu). cbn [snd].
      destruct (find_user_by_username u (db s)) as [found|] eqn:Ef; cbn.
      * apply step_socket. apply find_elem_of in Ef as [Hin _]. exact Hin.
      * apply step_user, Ef.
    + unfold join_app. rewrite Eu. apply step_none.
  - destruct (Data.channel_id data) as [c|] eqn:Ec;
      [|unfold join_channel; rewrite Ec; apply step_none].
    destruct (get_user_by_socket_id sid (db s)) as [u|] eqn:Eu;
      [|rewrite (join_channel_dropped sid data s c Ec); auto using step_none].
    destruct (find_channel_by_id c (db s)) as [ch|] eqn:Ech;
      [|rewrite (join_channel_dropped sid data s c Ec); auto using step_none].
    rewrite (join_channel_effect sid data s c u ch Ec Eu Ech).
    destruct (fst (get_channel_messages_api c s)); apply step_none.
  - destruct (Data.channel_id data) as [c|] eqn:Ec;
      [|unfold leave_channel; rewrite Ec; apply step_none].
    destruct (get_user_by_socket_id sid (db s)) as [u|] eqn:Eu.
    + rewrite (leave_channel_run sid data s c u Ec Eu). apply step_none.
    + rewrite (leave_channel_dropped sid data s c Ec Eu). apply step_none.
  - destruct (Data.channel_id data) as [c|] eqn:Ec;
      [|unfold send_message; rewrite Ec; apply step_none].
    destruct (Data.content data) as [t|] eqn:Et;
      [|unfold send_message; rewrite Ec, Et; apply step_none].
    rewrite (send_message_state sid data now s c t Ec Et). cbn [snd].
    destruct (get_user_by_socket_id sid (db s)) as [u|] eqn:Eu; [|apply step_none].
    destruct (find_channel_by_id c (db s)) as [ch|] eqn:Ech; [|apply step_none].
    destruct (strip t) as [|a k] eqn:Es; cbn; [apply step_none|].
    apply get_user_by_socket_id_elem in Eu as [Hin _].
    apply step_message; [exact Hin | congruence | congruence].
  - destruct (Data.name data) as [n|] eqn:En;
      [|unfold create_channel; rewrite En; apply step_none].
    rewrite (create_channel_state sid data now s n En). cbn [snd].
    destruct (get_user_by_socket_id sid (db s)) as [u|]; [|apply step_none].
    destruct (find_channel_by_name n (db s)) as [ch|] eqn:Ech; cbn;
      [apply step_none | apply step_channel, Ech].
Qed.

(** A property of the database that every write keeps holds after any
    sequence of events. *)
Lemma run_db_invariant (P : database -> Prop) :
  (forall d d', P d -> db_step d d' -> P d') ->
  forall events s, P (db s) -> P (db (run events s)).
Proof.
  intros Hstep. unfold run. induction events as [|[sid r] events IH]; intros s Hs.
  - exact Hs.
  - cbn. apply IH. eapply Hstep; [exact Hs | apply handle_db_step].
Qed.

Lemma db_step_unique_columns d d' :
  unique_columns d -> db_step d d' -> unique_columns d'.
Proof.
  intros (Hui & Hun & Hci & Hcn & Hmi) Hstep. unfold unique_columns.
  destruct Hstep as [|u v Hin|username sid now Hnone|name descr now Hnone
                     |content u c now Hin Hch Hne]; cbn.
  - auto.
  - change (map User.id (map _ (users d)))
      with (map User.id (users (update_socket_id (User.id u) v d))).
    change (map User.username (map _ (users d)))
      with (map User.username (users (update_socket_id (User.id u) v d))).
    rewrite update_socket_id_ids, update_socket_id_names. auto.
  - rewrite !map_app. cbn. repeat split; auto.
    + apply NoDup_snoc_fresh; [exact Hui | apply next_id_fresh].
    + apply NoDup_snoc_fresh;
        [exact Hun | apply find_user_by_username_unknown, Hnone].
  - rewrite !map_app. cbn. repeat split; auto.
    + apply NoDup_snoc_fresh; [exact Hci | apply next_id_fresh].
    + apply NoDup_snoc_fresh;
        [exact Hcn | apply find_channel_by_name_unknown, Hnone].
  - rewrite !map_app. cbn. repeat split; auto.
    apply NoDup_snoc_fresh; [exact Hmi | apply next_id_fresh].
Qed.

(** The handlers never need the database to enforce its constraints: if
    the primary keys, the user names and the channel names are unique,
    they still are after any sequence of events. *)
Theorem unique_columns_kept events s :
  unique_columns (db s) -> unique_columns (db (run events s)).
Proof. apply run_db_invariant. exact db_step_unique_columns. Qed.

Lemma unique_columns_kept_witness : unique_columns (db (run session seeded)).
Proof.
  apply (unique_columns_kept session seeded).
  unfold unique_columns. repeat split; apply (bool_decide_unpack _); vm_compute; exact I.
Defined.

Lemma db_step_ids d d' :
  db_step d d' ->
  (forall i, i ∈ map User.id (users d) -> i ∈ map User.id (users d'))
  /\ (forall i, i ∈ map Channel.id (channels d) -> i ∈ map Channel.id (channels d')).
Proof.
  intros [|u v Hin|username sid now Hnone|name descr now Hnone
          |content u c now Hin Hch Hne]; cbn.
  - auto.
  - change (map User.id (map _ (users d)))
      with (map User.id (users (update_socket_id (User.id u) v d))).
    rewrite update_socket_id_ids. auto.
  - split; [|auto]. intros i Hi. rewrite map_app. apply elem_of_app. auto.
  - split; [auto|]. intros i Hi. rewrite map_app. apply elem_of_app. auto.
  - auto.
Qed.

Lemma db_step_messages d d' :
  db_step d d' ->
  messages d' = messages d
  \/ exists content u channel_id now,
       u ∈ users d /\ find_channel_by_id channel_id d <> None /\ strip content <> []
       /\ messages d' =
            messages d ++ [Message.mk (next_id (map Message.id (messages d)))
                             content (User.id u) channel_id now].
Proof.
  intros [|u v Hin|username sid now Hnone|name descr now Hnone
          |content u c now Hin Hch Hne]; cbn; auto.
  right. exists content, u, c, now. auto.
Qed.

Lemma db_step_messages_sound d d' :
  messages_sound d -> db_step d d' -> messages_sound d'.
Proof.
  intros Hs Hstep m Hm.
  destruct (db_step_ids d d' Hstep) as [Husers Hchans].
  assert (Hold : forall m, m ∈ messages d ->
            find_user_by_id (Message.user_id m) d' <> None
            /\ find_channel_by_id (Message.channel_id m) d' <> None
            /\ strip (Message.content m) <> []).
  { intros x Hx. destruct (Hs x Hx) as (Ha & Hc & Ht).
    rewrite find_user_by_id_known in *. rewrite find_channel_by_id_known in *. auto. }
  destruct (db_step_messages d d' Hstep)
    as [Heq | (content & u & c & now & Hin & Hch & Hne & Heq)];
    rewrite Heq in Hm; [auto|].
  apply elem_of_app in Hm as [Hm | ->%list_elem_of_singleton]; [auto|]. cbn.
  split; [|split; [|exact Hne]].
  - apply find_user_by_id_known, Husers, list_elem_of_fmap. eauto.
  - apply find_channel_by_id_known, Hchans, find_channel_by_id_known, Hch.
Qed.

(** Stored messages stay sound: if every message row has its author row,
    its channel row and a content that is not blank, that is still so
    after any sequence of events. *)
Theorem messages_sound_kept events s :
  messages_sound (db s) -> messages_sound (db (run events s)).
Proof. apply run_db_invariant. exact db_step_messages_sound. Qed.

Lemma messages_sound_kept_witness :
  messages_sound (db (run session alice_has_spoken)).
Proof.
  apply (messages_sound_kept session alice_has_spoken).
  intros m Hm. vm_compute in Hm.
  apply list_elem_of_singleton in Hm as ->.
  vm_compute. repeat split; discriminate.
Defined.

(** ** Nothing stored is ever removed *)

Lemma db_step_append_only d d' :
  db_step d d' ->
  messages d `prefix_of` messages d'
  /\ channels d `prefix_of` channels d'
  /\ map user_key (users d) `prefix_of` map user_key (users d').
Proof.
  intros [|u v Hin|username sid now Hnone|name descr now Hnone
          |content u c now Hin Hch Hne]; cbn.
  - repeat split; reflexivity.
  - change (map user_key (map _ (users d)))
      with (map user_key (users (update_socket_id (User.id u) v d))).
    rewrite update_socket_id_keys. repeat split; reflexivity.
  - repeat split; try reflexivity. rewrite map_app. apply prefix_app_r. reflexivity.
  - repeat split; try reflexivity. apply prefix_app_r. reflexivity.
  - repeat split; try reflexivity. apply prefix_app_r. reflexivity.
Qed.

(** The handlers only append: after any sequence of events the messages
    and the channels that were stored are still there, unchanged and in
    the same place, followed by the new ones, and so are the users with
    their ids, names and creation times (only [socket_id] is rewritten). *)
Theorem stored_rows_kept events s :
  let s' := run events s in
  messages (db s) `prefix_of` messages (db s')
  /\ channels (db s) `prefix_of` channels (db s')
  /\ map user_key (users (db s)) `prefix_of` map user_key (users (db s')).
Proof.
  cbn zeta. unfold run. revert s.
  induction events as [|[sid r] events IH]; intros s.
  - repeat split; reflexivity.
  - cbn [foldl fst snd].
    destruct (db_step_append_only _ _ (handle_db_step sid r s)) as (Hm & Hc & Hu).
    destruct (IH (exec (handle sid r) s)) as (Hm' & Hc' & Hu').
    repeat split; etrans; eassumption.
Qed.

(** ** Rooms and joined-channel sets *)




(** ** Who a connection is *)

(** [join_app] with a name that has a row reuses the row: the table keeps
    its length, ids and names, and the caller is told the id of that row.
    With a name that has no row it appends one row, with a new id, and
    tells that id. *)
Theorem join_app_reuses_or_creates sid data now s username :
  Data.username data = Some username ->
  let s' := exec (join_app sid data now) s in
  (forall user, find_user_by_username username (db s) = Some user ->
     map user_key (users (db s')) = map user_key (users (db s))
     /\ sent s' = sent s ++ [Emit (Event.joined_app username (User.id user)) (to_sid sid)])
  /\ (find_user_by_username username (db s) = None ->
      let id := next_id (map User.id (users (db s))) in
      users (db s') = users (db s) ++ [User.mk id username (Some sid) now]
      /\ (id ∉ map User.id (users (db s)))
      /\ sent s' = sent s ++ [Emit (Event.joined_app username id) (to_sid sid)]).
Proof.
  intros Hu. cbn zeta. unfold exec. rewrite (join_app_state sid data now s username Hu).
  cbn [snd]. split.
  - intros user ->. cbn. split; [apply update_socket_id_keys | reflexivity].
  - intros ->. cbn. split; [reflexivity|]. split; [apply next_id_fresh | reflexivity].
Qed.

(** Alice disconnects and comes back on another connection: same id. *)
Lemma join_app_reuses_or_creates_witness :
  let s := exec (disconnect "s1") alice_in_general in
  let s' := exec (join_app "s7" (with_username "alice") 30) s in
  map user_key (users (db s')) = map user_key (users (db s))
  /\ sent s' = sent s ++ [Emit (Event.joined_app "alice" 1) (to_sid "s7")].
Proof.
  refine (proj1 (join_app_reuses_or_creates "s7" (with_username "alice") 30
                   (exec (disconnect "s1") alice_in_general) "alice" eq_refl)
            (User.mk 1 "alice" None 1) _).
  vm_compute. reflexivity.
Defined.

(** A connection that a User row points to and that sends [join_app] with
    a name nobody has used yet is still that first user for every later
    handler, while [active_users] now holds the new name: its messages go
    out under the old name. *)
Theorem join_app_new_name_keeps_first_user sid data now s username user :
  Data.username data = Some username ->
  get_user_by_socket_id sid (db s) = Some user ->
  find_user_by_username username (db s) = None ->
  let s' := exec (join_app sid data now) s in
  get_user_by_socket_id sid (db s') = Some user
  /\ User.username user <> username
  /\ active_users s' !! sid = Some username
  /\ forall msg now' channel_id content channel,
       Data.channel_id msg = Some channel_id ->
       Data.content msg = Some content ->
       find_channel_by_id channel_id (db s') = Some channel ->
       strip content <> [] ->
       exists id,
         sent (exec (send_message sid msg now') s') =
           sent s' ++ [Emit (Event.new_message
                               (MessageData.mk id content (User.username user) now'
                                  channel_id))
                            (to_channel channel_id)].
Proof.
  intros Hu Hfound Hnew. cbn zeta.
  assert (Hstill : get_user_by_socket_id sid
                     (db (exec (join_app sid data now) s)) = Some user).
  { unfold exec. rewrite (join_app_state sid data now s username Hu), Hnew. cbn.
    unfold get_user_by_socket_id in *. cbn. rewrite find_app, Hfound. reflexivity. }
  split; [exact Hstill|]. split; [|split].
  - intros Heq. apply get_user_by_socket_id_elem in Hfound as [Hin _].
    apply (find_user_by_username_unknown username (db s) Hnew).
    apply list_elem_of_fmap. eauto.
  - unfold exec. rewrite (join_app_state sid data now s username Hu), Hnew. cbn.
    apply lookup_insert_eq.
  - intros msg now' c content channel Hc Ht Hch Hne.
    unfold exec at 1.
    rewrite (send_message_state sid msg now' _ c content Hc Ht), Hstill, Hch.
    destruct (strip content); [congruence|]. cbn. eauto.
Qed.

Lemma join_app_new_name_keeps_first_user_witness :
  get_user_by_socket_id "s1" (db alice_renamed)
    = Some (User.mk 1 "alice" (Some "s1"%string) 1)
  /\ active_users alice_renamed !! "s1"%string = Some "bob"%string.
Proof.
  destruct (join_app_new_name_keeps_first_user "s1" (with_username "bob") 20
              alice_in_general "bob" (User.mk 1 "alice" (Some "s1"%string) 1)
              eq_refl eq_refl eq_refl) as (H1 & _ & H2 & _).
  split; [exact H1 | exact H2].
Defined.

(** ** Histories *)

Lemma history_entries msgs s history s' :
  mapM message_data msgs s = (Returned history, s') ->
  Forall2 (fun m e =>
             MessageData.id e = Message.id m
             /\ MessageData.content e = Message.content m
             /\ MessageData.timestamp e = Message.timestamp m
             /\ MessageData.channel_id e = Message.channel_id m
             /\ exists u, find_user_by_id (Message.user_id m) (db s) = Some u
                          /\ MessageData.username e = User.username u)
          msgs history.
Proof.
  revert history s'. induction msgs as [|m msgs IH]; intros history s' Hrun.
  - injection Hrun as <- _. constructor.
  - rewrite mapM_cons, message_data_run in Hrun.
    destruct (find_user_by_id (Message.user_id m) (db s)) as [u|] eqn:Eu;
      [|discriminate].
    destruct (mapM message_data msgs s) as [[k|e] s''] eqn:Ek; [|discriminate].
    injection Hrun as <- _. constructor; [|eapply IH; reflexivity].
    cbn. repeat split; eauto.
Qed.

Lemma get_channel_messages_of_channel channel_id d limit m :
  m ∈ get_channel_messages channel_id d limit -> Message.channel_id m = channel_id.
Proof.
  unfold get_channel_messages, of_channel. rewrite elem_of_reverse.
  intros Hm%subseteq_take.
  rewrite order_by_timestamp_desc_Permutation in Hm.
  apply list_elem_of_filter in Hm as [Hc _]. exact Hc.
Qed.

(** The history that [channel_joined] carries is what
    [GET /api/channels/{id}/messages] answers at that moment: at most 50
    entries, all of the joined channel. *)
Theorem channel_joined_carries_api_history sid data s channel_id user channel history :
  Data.channel_id data = Some channel_id ->
  get_user_by_socket_id sid (db s) = Some user ->
  find_channel_by_id channel_id (db s) = Some channel ->
  result (get_channel_messages_api channel_id) s = Returned history ->
  sent (exec (join_channel sid data) s) =
    sent s ++ [Emit (Event.channel_joined channel_id (Channel.name channel) history)
                    (to_sid sid);
               Emit (Event.user_joined (User.username user) channel_id)
                    (to_room (channel_room channel_id) (Some sid))]
  /\ (length history <= 50)%nat
  /\ Forall (fun e => MessageData.channel_id e = channel_id) history.
Proof.
  intros Hc Hu Hch Hapi. unfold result in Hapi. split; [|split].
  - unfold exec. rewrite (join_channel_effect sid data s channel_id user channel Hc Hu Hch).
    rewrite Hapi. reflexivity.
  - rewrite get_channel_messages_api_run in Hapi.
    destruct (mapM message_data _ s) as [o s'] eqn:E. cbn in Hapi. subst o.
    apply history_entries, Forall2_length in E. rewrite <- E.
    unfold get_channel_messages. rewrite length_reverse, length_take. lia.
  - rewrite get_channel_messages_api_run in Hapi.
    destruct (mapM message_data _ s) as [o s'] eqn:E. cbn in Hapi. subst o.
    apply history_entries in E.
    assert (Hall : Forall (fun m => Message.channel_id m = channel_id)
                     (get_channel_messages channel_id (db s) 50)).
    { apply Forall_forall. intros m. apply get_channel_messages_of_channel. }
    revert Hall. induction E as [|m e msgs h (_ & _ & _ & He & _) _ IH]; intros Hall.
    + constructor.
    + apply Forall_cons in Hall as [Hm Hall]. constructor; [congruence | auto].
Qed.

(** A second connection joins channel 1 after alice has spoken there. *)
Lemma channel_joined_carries_api_history_witness :
  let s := exec (join_app "s2" (with_username "bob") 11) alice_has_spoken in
  let history := [MessageData.mk 1 (text "hello") "alice" 10 1] in
  sent (exec (join_channel "s2" (with_channel 1)) s) =
    sent s ++ [Emit (Event.channel_joined 1 "general" history) (to_sid "s2");
               Emit (Event.user_joined "bob" 1)
                    (to_room (channel_room 1) (Some "s2"%string))]
  /\ (length history <= 50)%nat
  /\ Forall (fun e => MessageData.channel_id e = 1) history.
Proof.
  apply (channel_joined_carries_api_history "s2" (with_channel 1)
           (exec (join_app "s2" (with_username "bob") 11) alice_has_spoken) 1
           (User.mk 2 "bob" (Some "s2"%string) 11)
           (Channel.mk 1 "general" (Some "General discussion"%string) 0));
    vm_compute; reflexivity.
Defined.

Lemma order_by_timestamp_desc_newest l m :
  Forall (fun x => before x m) l ->
  order_by_timestamp_desc (l ++ [m]) = m :: order_by_timestamp_desc l.
Proof.
  unfold order_by_timestamp_desc, before. rewrite foldr_app. cbn [foldr].
  induction 1 as [|x l Hx Hl IH]; cbn [foldr]; [reflexivity|].
  rewrite IH. cbn.
  destruct (Z.ltb_spec (Message.timestamp x) (Message.timestamp m)); [reflexivity | lia].
Qed.

(** A message sent while the clock is ahead of every timestamp stored for
    the channel is the last (newest) row of the channel's history right
    after, with the id, author and content that were broadcast. *)
Theorem sent_message_is_newest sid data now s channel_id content user channel :
  Data.channel_id data = Some channel_id ->
  Data.content data = Some content ->
  get_user_by_socket_id sid (db s) = Some user ->
  find_channel_by_id channel_id (db s) = Some channel ->
  strip content <> [] ->
  (forall m, m ∈ of_channel channel_id (db s) -> Message.timestamp m < now) ->
  let s' := exec (send_message sid data now) s in
  let id := next_id (map Message.id (messages (db s))) in
  last (get_channel_messages channel_id (db s') 50)
    = Some (Message.mk id content (User.id user) channel_id now)
  /\ last (sent s')
     = Some (Emit (Event.new_message
                     (MessageData.mk id content (User.username user) now channel_id))
                  (to_channel channel_id)).
Proof.
  intros Hc Ht Hu Hch Hne Hclock. cbn zeta. unfold exec.
  rewrite (send_message_state sid data now s channel_id content Hc Ht), Hu, Hch.
  destruct (strip content) as [|a k]; [congruence|]. cbn [truthy snd db sent].
  split; [|apply last_snoc].
  unfold get_channel_messages, of_channel, add_message. cbn [messages].
  rewrite filter_app, filter_cons_True, filter_nil by reflexivity.
  rewrite order_by_timestamp_desc_newest.
  - cbn [take]. rewrite reverse_cons. apply last_snoc.
  - apply Forall_forall. intros m Hm. apply Hclock, Hm.
Qed.

Lemma sent_message_is_newest_witness :
  let s' := exec (send_message "s1" (with_message 1 (text "again")) 11) alice_has_spoken in
  last (get_channel_messages 1 (db s') 50) = Some (Message.mk 2 (text "again") 1 1 11)
  /\ last (sent s')
     = Some (Emit (Event.new_message (MessageData.mk 2 (text "again") "alice" 11 1))
                  (to_channel 1)).
Proof.
  apply (sent_message_is_newest "s1" (with_message 1 (text "again")) 11
           alice_has_spoken 1 (text "again")
           (User.mk 1 "alice" (Some "s1"%string) 1)
           (Channel.mk 1 "general" (Some "General discussion"%string) 0));
    try reflexivity.
  - vm_compute. discriminate.
  - intros m Hm. vm_compute in Hm. apply list_elem_of_singleton in Hm as ->.
    reflexivity.
Defined.

(** ** Channels *)

Lemma create_default_channels_state now s :
  create_default_channels now s =
    (Returned tt,
     match channels (db s) with
     | [] =>
         mk_server
           (mk_database (users (db s))
              [Channel.mk 1 "general" (Some "General discussion"%string) now;
               Channel.mk 2 "random" (Some "Random conversations"%string) now;
               Channel.mk 3 "tech" (Some "Technology discussions"%string) now]
              (messages (db s)))
           (active_users s) (user_channels s) (rooms s) (sent s)
     | _ :: _ => s
     end).
Proof.
  unfold create_default_channels. unfold_handler.
  destruct (channels (db s)) as [|c l] eqn:E; cbn [length].
  - rewrite bool_decide_eq_true_2 by reflexivity.
    unfold add_channel. cbn. unfold_handler. rewrite ?E. reflexivity.
  - rewrite bool_decide_eq_false_2 by discriminate. reflexivity.
Qed.

(** [create_default_channels] seeds an empty channels table with general,
    random and tech, in that order and with unique ids and names, and
    does nothing to a table that has a row: running it again changes
    nothing. *)
Theorem create_default_channels_once now now' s :
  let s' := exec (create_default_channels now) s in
  (channels (db s) = [] ->
     map Channel.name (channels (db s')) = ["general"; "random"; "tech"]%string
     /\ NoDup (map Channel.id (channels (db s'))))
  /\ (channels (db s) <> [] -> s' = s)
  /\ exec (create_default_channels now') s' = s'.
Proof.
  cbn zeta. unfold exec. rewrite !create_default_channels_state. cbn [snd].
  destruct (channels (db s)) as [|c l] eqn:E.
  - cbn. split; [|split; [congruence | reflexivity]].
    intros _. split; [reflexivity|]. apply (bool_decide_unpack _). vm_compute. exact I.
  - rewrite E. split; [discriminate|]. split; reflexivity.
Qed.



(** After a [create_channel] with a free name, [GET /api/channels] lists
    the old entries followed by one new entry, which is the payload of the
    [channel_created] broadcast; its id is new. *)
Theorem created_channel_is_listed sid data now s name user :
  Data.name data = Some name ->
  get_user_by_socket_id sid (db s) = Some user ->
  find_channel_by_name name (db s) = None ->
  let s' := exec (create_channel sid data now) s in
  exists id description,
    get_channels (db s') = get_channels (db s) ++ [ChannelData.mk id name description]
    /\ sent s' = sent s ++ [Emit (Event.channel_created id name description) to_all]
    /\ Forall (fun entry => ChannelData.id entry <> id) (get_channels (db s)).
Proof.
  intros Hn Hu Hfree. cbn zeta. unfold exec.
  rewrite (create_channel_state sid data now s name Hn), Hu, Hfree. cbn [snd db sent].
  eexists _, _. split; [|split; [reflexivity|]].
  - unfold get_channels, add_channel. cbn. rewrite map_app. reflexivity.
  - apply Forall_forall. intros entry Hin Heq. unfold get_channels in Hin.
    apply list_elem_of_fmap in Hin as (c & -> & Hc). cbn in Heq.
    apply (next_id_fresh (map Channel.id (channels (db s)))).
    rewrite <- Heq. apply list_elem_of_fmap. eauto.
Qed.

Lemma created_channel_is_listed_witness :
  let s' := exec (create_channel "s1" (with_name "dev") 5) alice_online in
  exists id description,
    get_channels (db s') = get_channels (db alice_online)
                           ++ [ChannelData.mk id "dev" description]
    /\ sent s' = sent alice_online
                 ++ [Emit (Event.channel_created id "dev" description) to_all]
    /\ Forall (fun entry => ChannelData.id entry <> id) (get_channels (db alice_online)).
Proof.
  apply (created_channel_is_listed "s1" (with_name "dev") 5 alice_online "dev"
           (User.mk 1 "alice" (Some "s1"%string) 1)); reflexivity.
Defined.

(** ** Going offline *)

Lemma find_socket_None sid (l : list User.t) :
  (forall v, v ∈ l -> User.socket_id v <> Some sid) ->
  find (fun u => bool_decide (User.socket_id u = Some sid)) l = None.
Proof.
  intros H. apply find_is_None. intros v Hv. apply bool_decide_eq_false, H, Hv.
Qed.

(** When the rows that point to a connection all have the id of the first
    of them, its [disconnect] leaves no row pointing to it (the rows stay,
    with [socket_id] cleared): whatever the connection id sends next,
    other than [join_app], is dropped. *)
Theorem disconnect_clears_socket_id sid s user :
  get_user_by_socket_id sid (db s) = Some user ->
  (forall v, v ∈ users (db s) -> User.socket_id v = Some sid -> User.id v = User.id user) ->
  let s' := exec (disconnect sid) s in
  get_user_by_socket_id sid (db s') = None
  /\ map user_key (users (db s')) = map user_key (users (db s))
  /\ find_user_by_id (User.id user) (db s') <> None.
Proof.
  intros Hu Honly. cbn zeta.
  assert (Hdb : db (exec (disconnect sid) s)
                = update_socket_id (User.id user) None (db s)).
  { unfold exec. rewrite disconnect_state, Hu. cbn.
    destruct (active_users s !! sid); [destruct (user_channels s !! sid)|]; reflexivity. }
  rewrite Hdb. split; [|split].
  - unfold get_user_by_socket_id, update_socket_id. cbn.
    apply find_socket_None. intros v (w & -> & Hw)%list_elem_of_fmap.
    destruct (bool_decide (User.id w = User.id user)) eqn:E; cbn; [discriminate|].
    apply bool_decide_eq_false in E. intros Hs. apply E, Honly; assumption.
  - apply update_socket_id_keys.
  - apply find_user_by_id_known. rewrite update_socket_id_ids.
    apply get_user_by_socket_id_elem in Hu as [Hin _].
    apply list_elem_of_fmap. eauto.
Qed.

Lemma disconnect_clears_socket_id_witness :
  let s' := exec (disconnect "s1") alice_in_general in
  get_user_by_socket_id "s1" (db s') = None
  /\ map user_key (users (db s')) = map user_key (users (db alice_in_general))
  /\ find_user_by_id 1 (db s') <> None.
Proof.
  apply (disconnect_clears_socket_id "s1" alice_in_general
           (User.mk 1 "alice" (Some "s1"%string) 1)); [reflexivity|].
  intros v Hv _. vm_compute in Hv. apply list_elem_of_singleton in Hv as ->.
  reflexivity.
Defined.
